(** * temporal-python-template: the HTTP workflow, its activity and its Ray worker

  A shallow embedding of
    - [src/workflows/http/activities.py]     (module [Activities]),
    - [src/workflows/http/http_workflow.py]  (module [HttpWorkflow]),
    - [src/workflows/http/worker.py]         (module [Worker]).

  The three files contain no algorithm of their own: every line is a call
  into a library (aiohttp, temporalio, ray, asyncio, logging).  A Python
  coroutine is therefore embedded as a finite tree of library calls
  ([prog]): each node names the call with the arguments the source passes,
  and continues with whatever the library answers (a value, a raised
  exception, or nothing at all when the call never returns).  The libraries
  themselves are not part of the repository; they appear as a [handler]
  over which the theorems quantify. *)

From Stdlib Require Import String List ZArith Lia Bool.
Import ListNotations.
Local Open Scope string_scope.
Local Open Scope Z_scope.

Set Implicit Arguments.

(** ** Python values, exceptions and results *)

Module Py.

(** The part of the exception hierarchy that [except KeyboardInterrupt] and
    [except Exception] (worker.py, lines 141 and 143) tell apart. *)
Inductive exn : Type :=
| KeyboardInterrupt
| BaseOnly (cls : string)                  (* SystemExit, CancelledError, ... *)
| Exc (cls : string)                       (* a subclass of Exception *)
| ExcFrom (cls : string) (cause : exn).    (* the same, with a __cause__ *)

Definition is_KeyboardInterrupt (e : exn) : bool :=
  match e with KeyboardInterrupt => true | _ => false end.

Definition is_Exception (e : exn) : bool :=
  match e with Exc _ | ExcFrom _ _ => true | _ => false end.


Inductive result (A : Type) : Type :=
| Ok (a : A)
| Raise (e : exn).
Arguments Ok {A} a.
Arguments Raise {A} e.

(** What [ray.get] hands back and [asyncio.gather] receives. *)
Inductive value : Type :=
| VNone
| VStr (s : string)
| VInt (z : Z)
| VAwaitable (id : nat).

(** [datetime.timedelta], normalised as CPython stores it. *)
Record timedelta : Type := { days : Z; seconds : Z; microseconds : Z }.

Definition timedelta_of_seconds (s : Z) : timedelta :=
  {| days := s / 86400; seconds := s mod 86400; microseconds := 0 |}.

Definition total_microseconds (t : timedelta) : Z :=
  (days t * 86400 + seconds t) * 1000000 + microseconds t.

(** A name as the import system sees it: [from module import name]. *)
Record qualname : Type := { module_ : string; name : string }.

Definition qualname_eqb (a b : qualname) : bool :=
  String.eqb (module_ a) (module_ b) && String.eqb (name a) (name b).

Definition nl : string := String (Ascii.ascii_of_nat 10) EmptyString.

(** [range(n)] for a Python int. *)
Definition range (n : Z) : list Z := map Z.of_nat (seq 0 (Z.to_nat n)).

End Py.
Import Py.

(** ** The library calls the three files make *)

Module Lib.

Definition session := nat.
Definition client := nat.
Definition worker := nat.
Definition executor := nat.
Definition actor := nat.
Definition objref := nat.

(** [aiohttp.ClientResponse]: the attributes a caller could inspect. *)
Record response : Type := { status : Z; url : string }.

Inductive level : Type := INFO | ERROR.

(** One call of [logger.info] / [logger.exception]: the logger, the level,
    the format string and its arguments. *)
Inductive logarg : Type := AStr (s : string) | AInt (z : Z).
Record log_record : Type :=
  { logger : string; lvl : level; fmt : string; args : list logarg }.

(** [libE X] is a library call whose normal answer has type [X].
    Where the source enters a context manager, construction and
    [__aenter__] are one call (both happen before the body is protected);
    [__aexit__] is a call of its own and receives the pending exception.
    aiohttp's [__aexit__] methods are annotated [-> None]: they never
    suppress, so the answer type is [unit]. *)
Inductive libE : Type -> Type :=
(* aiohttp *)
| ClientSession_enter : libE session
| ClientSession_aexit (s : session) (pending : option exn) : libE unit
| Session_get_enter (s : session) (u : string) : libE response
| Response_aexit (r : response) (pending : option exn) : libE unit
| Response_text (r : response) : libE string
(* temporalio.workflow *)
| execute_activity (activity : qualname) (arg : string)
                   (start_to_close_timeout : timedelta) : libE string
(* temporalio.client *)
| Client_connect (target : string) (data_converter : option string) : libE client
| Client_execute_workflow (wf : qualname) (arg id task_queue : string) : libE string
| Client_close (c : client) : libE unit
(* concurrent.futures, temporalio.worker *)
| ThreadPoolExecutor_new (max_workers : Z) : libE executor
| Worker_new (c : option client) (task_queue : string)
             (workflows activities : list qualname)
             (activity_executor : executor) : libE worker
| Worker_run (w : worker) : libE unit
| Worker_shutdown (w : worker) : libE value    (* called, not awaited: line 79 *)
(* ray *)
| ray_is_initialized : libE bool
| ray_init : libE unit
| ray_shutdown : libE unit
| Actor_remote (cls : string) (temporal_server_url task_queue : string)
               (max_concurrent_activities : Z) : libE actor
| Method_remote (a : actor) (method : string) : libE objref
| ray_get (r : objref) : libE value            (* called, not awaited: line 139 *)
(* asyncio, builtins *)
| asyncio_gather (aws : list value) : libE (list value)
| print (s : string) : libE unit.

End Lib.
Import Lib.

(** ** Coroutines as trees of library calls *)

Module Prog.

Inductive prog (R : Type) : Type :=
| Ret (r : R)
| Log (l : log_record) (k : prog R)
| Call (X : Type) (e : libE X) (k : result X -> prog R).
Arguments Ret {R} r.
Arguments Log {R} l k.
Arguments Call {R X} e k.

Fixpoint bind {A B : Type} (p : prog A) (f : A -> prog B) : prog B :=
  match p with
  | Ret a => f a
  | Log l k => Log l (bind k f)
  | Call e k => Call e (fun r => bind (k r) f)
  end.

(** A coroutine returning [R]: it ends with a value or a raised exception. *)
Definition py (R : Type) : Type := prog (result R).

Definition ret {R : Type} (r : R) : py R := Ret (Ok r).
Definition raise {R : Type} (e : exn) : py R := Ret (Raise e).
Definition call {X : Type} (e : libE X) : py X := Call e (fun r => Ret r).
Definition log_ (l : log_record) : py unit := Log l (Ret (Ok tt)).

(** Sequencing of statements: an exception skips the rest. *)
Definition pbind {A B : Type} (p : py A) (f : A -> py B) : py B :=
  bind p (fun r => match r with Ok a => f a | Raise e => Ret (Raise e) end).

(** A method of an object whose attributes are [S]: the attributes are
    threaded through, and survive an exception. *)
Definition meth (S R : Type) : Type := S -> prog (result R * S).

Definition mret {S R : Type} (r : R) : meth S R := fun s => Ret (Ok r, s).

Definition mbind {S A B : Type} (m : meth S A) (f : A -> meth S B) : meth S B :=
  fun s => bind (m s) (fun rs =>
    match fst rs with
    | Ok a => f a (snd rs)
    | Raise e => Ret (Raise e, snd rs)
    end).

Definition lift {S A : Type} (p : py A) : meth S A :=
  fun s => bind p (fun r => Ret (r, s)).

Definition read {S A : Type} (f : S -> A) : meth S A := fun s => Ret (Ok (f s), s).

Definition assign {S : Type} (f : S -> S) : meth S unit := fun s => Ret (Ok tt, f s).

(** Attribute access on a value that may be [None]. *)
Definition deref {S A : Type} (o : option A) : meth S A :=
  fun s => match o with
           | Some a => Ret (Ok a, s)
           | None => Ret (Raise (Exc "AttributeError"), s)
           end.

(** [async with <enter> as m: <body>]. *)
Definition async_with {M R : Type} (enter : libE M)
    (aexit : M -> option exn -> libE unit) (body : M -> py R) : py R :=
  pbind (call enter) (fun m =>
    bind (body m) (fun rb =>
      let pending := match rb with Ok _ => None | Raise e => Some e end in
      bind (call (aexit m pending)) (fun rx =>
        match rx with
        | Ok _ => Ret rb
        | Raise e' => Ret (Raise e')
        end))).

(** [try: <body> except <matches>: <handle>]: the first clause that
    matches wins; an exception no clause matches goes on. *)
Fixpoint select_handler {R : Type}
    (clauses : list ((exn -> bool) * (exn -> py R))) (e : exn) : py R :=
  match clauses with
  | [] => Ret (Raise e)
  | (matches, handle) :: rest =>
      if matches e then handle e else select_handler rest e
  end.

Definition try_except {R : Type} (body : py R)
    (clauses : list ((exn -> bool) * (exn -> py R))) : py R :=
  bind body (fun r =>
    match r with
    | Ok a => Ret (Ok a)
    | Raise e => select_handler clauses e
    end).

(** [try: <body> finally: <fin>]. *)
Definition try_finally {R : Type} (body : py R) (fin : py unit) : py R :=
  bind body (fun r =>
    bind fin (fun rf =>
      match rf with
      | Ok _ => Ret r
      | Raise e' => Ret (Raise e')
      end)).

(** *** Running a coroutine against the libraries *)

(** What the libraries do is a [handler]: given a call and the state of the
    outside world it answers with a value or an exception and a new world,
    or with [None] when the call never returns. *)
Definition handler (W : Type) : Type :=
  forall X : Type, libE X -> W -> option (result X * W).

Inductive entry : Type :=
| ELog (l : log_record)
| ECall (X : Type) (e : libE X) (answer : option (result X)).
Arguments ECall {X} e answer.

Definition trace := list entry.

Inductive ending (R : Type) : Type :=
| Done (r : R)
| Blocked.               (* suspended for ever inside the last call *)
Arguments Done {R} r.
Arguments Blocked {R}.

Record run_ (R W : Type) : Type :=
  { events : trace; final : ending R; world : W }.

Fixpoint exec {R W : Type} (h : handler W) (p : prog R) (w : W) : run_ R W :=
  match p with
  | Ret r => {| events := []; final := Done r; world := w |}
  | Log l k =>
      let r := exec h k w in
      {| events := ELog l :: events r; final := final r; world := world r |}
  | Call e k =>
      match h _ e w with
      | None => {| events := [ECall e None]; final := Blocked; world := w |}
      | Some (a, w1) =>
          let r := exec h (k a) w1 in
          {| events := ECall e (Some a) :: events r;
             final := final r; world := world r |}
      end
  end.

End Prog.
Import Prog.

Declare Scope py_scope.
Delimit Scope py_scope with py.
Notation "x <- p ;; q" := (pbind p (fun x => q))
(at level 61, p at next level, right associativity) : py_scope.
Notation "p ;; q" := (pbind p (fun _ => q))
(at level 61, right associativity) : py_scope.
Local Open Scope py_scope.

Declare Scope meth_scope.
Delimit Scope meth_scope with meth.
Notation "x <- p ;; q" := (mbind p (fun x => q))
  (at level 61, p at next level, right associativity) : meth_scope.
Notation "p ;; q" := (mbind p (fun _ => q))
  (at level 61, right associativity) : meth_scope.

(** ** The files of the repository, as the import system finds them *)

Module Repo.

(** Each module of the package [src] with the names its file binds at top
    level.  Imports from outside the package (aiohttp, temporalio, ray) are
    taken to succeed. *)
Definition modules : list (string * list string) :=
  [ ("src.workflows.http.activities", ["http_get"]);
    ("src.workflows.http.http_workflow", ["HttpWorkflow"; "main"]);
    ("src.workflows.http.worker",
       ["logger"; "TemporalWorkerTask"; "run_ray_worker"; "main"]) ].

Fixpoint find_module (m : string) (ms : list (string * list string))
  : option (list string) :=
  match ms with
  | [] => None
  | (m', names) :: rest => if String.eqb m m' then Some names else find_module m rest
  end.

(** [from q.module_ import q.name]. *)
Definition import_from (q : qualname) : result qualname :=
  match find_module (module_ q) modules with
  | None => Raise (Exc "ModuleNotFoundError")
  | Some names =>
      if existsb (String.eqb (name q)) names then Ok q
      else Raise (Exc "ImportError")
  end.

(** The [from src... import ...] statements of a file, top to bottom. *)
Fixpoint import_all (qs : list qualname) : result unit :=
  match qs with
  | [] => Ok tt
  | q :: rest =>
      match import_from q with
      | Ok _ => import_all rest
      | Raise e => Raise e
      end
  end.

End Repo.

(** ** src/workflows/http/activities.py *)

Module Activities.

Definition __name__ : string := "src.workflows.http.activities".

Definition activity_logger : string := "temporalio.activity".

(** The activity this file defines, as other modules import it. *)
Definition def_http_get : qualname := {| module_ := __name__; name := "http_get" |}.

(** [http_get], lines 7-12. *)
Definition http_get (url : string) : py string :=
  log_ {| logger := activity_logger; lvl := INFO;
          fmt := "Activity: making HTTP GET call to %s"; args := [AStr url] |} ;;
  async_with ClientSession_enter ClientSession_aexit (fun session =>
    async_with (Session_get_enter session url) Response_aexit (fun response =>
      call (Response_text response))).

End Activities.

(** ** src/workflows/http/http_workflow.py *)

Module HttpWorkflow.

Definition __name__ : string := "src.workflows.http.http_workflow".

Definition workflow_logger : string := "temporalio.workflow".

(** Line 9: [from src.workflows.http.activities import http_get]. *)
Definition http_get : qualname :=
  {| module_ := "src.workflows.http.activities"; name := "http_get" |}.

(** The file's imports from the package, and what loading it gives. *)
Definition imports : list qualname := [http_get].
Definition load : result unit := Repo.import_all imports.

(** [HttpWorkflow.run], lines 16-24. *)
Definition run (url : string) : py string :=
  log_ {| logger := workflow_logger; lvl := INFO;
          fmt := "Workflow: triggering HTTP GET activity to %s";
          args := [AStr url] |} ;;
  call (execute_activity http_get url (timedelta_of_seconds 3)).

Definition HttpWorkflow_run : qualname :=
  {| module_ := __name__; name := "HttpWorkflow.run" |}.

(** [main], lines 27-39: the external caller's blocking submission. *)
Definition main : py unit :=
  client <- call (Client_connect "localhost:7233" None) ;;
  success_result <- call (Client_execute_workflow HttpWorkflow_run
                            "https://httpbin.org/anything/http-workflow"
                            "http-workflow-id" "http-task-queue") ;;
  call (print (nl ++ "Successful Workflow Result: " ++ success_result ++ nl)).

End HttpWorkflow.

(** ** src/workflows/http/worker.py *)

Module Worker.

Definition __name__ : string := "src.workflows.http.worker".

(** Line 16: [from src.workflows.http.http_activities import http_get]. *)
Definition http_get : qualname :=
  {| module_ := "src.workflows.http.http_activities"; name := "http_get" |}.

(** Line 17: [from src.workflows.http.http_workflow import HttpWorkflow]. *)
Definition HttpWorkflow : qualname :=
  {| module_ := "src.workflows.http.http_workflow"; name := "HttpWorkflow" |}.

Definition imports : list qualname := [http_get; HttpWorkflow].
Definition load : result unit := Repo.import_all imports.

Definition pydantic_data_converter : string :=
  "temporalio.contrib.pydantic.pydantic_data_converter".

Definition info (f : string) (a : list logarg) : log_record :=
  {| logger := __name__; lvl := INFO; fmt := f; args := a |}.

(** *** class TemporalWorkerTask *)

Record TemporalWorkerTask : Type :=
  { temporal_server_url : string;
    task_queue : string;
    max_concurrent_activities : Z;
    client : option Lib.client;
    worker : option Lib.worker }.

Definition set_client (c : option Lib.client) (self : TemporalWorkerTask) :=
  {| temporal_server_url := temporal_server_url self;
     task_queue := task_queue self;
     max_concurrent_activities := max_concurrent_activities self;
     client := c;
     worker := worker self |}.

Definition set_worker (w : option Lib.worker) (self : TemporalWorkerTask) :=
  {| temporal_server_url := temporal_server_url self;
     task_queue := task_queue self;
     max_concurrent_activities := max_concurrent_activities self;
     client := client self;
     worker := w |}.

Definition default {A : Type} (d : A) (o : option A) : A :=
  match o with Some a => a | None => d end.

(** [__init__], lines 28-46; [None] for a keyword left out. *)
Definition __init__ (url queue : option string) (n : option Z) : TemporalWorkerTask :=
  {| temporal_server_url := default "localhost:7233" url;
     task_queue := default "http-task-queue" queue;
     max_concurrent_activities := default 5 n;
     client := None;
     worker := None |}.

(** The object [TemporalWorkerTask.remote(temporal_server_url=u, task_queue=q,
    max_concurrent_activities=n)] constructs in the actor's process. *)
Definition replica (kwargs : string * string * Z) : TemporalWorkerTask :=
  let '(u, q, n) := kwargs in __init__ (Some u) (Some q) (Some n).

Local Open Scope meth_scope.

(** [start_worker], lines 48-73. *)
Definition start_worker : meth TemporalWorkerTask unit :=
  lift (log_ (info "Starting Temporal worker on Ray task..." [])) ;;
  url <- read temporal_server_url ;;
  c <- lift (call (Client_connect url (Some pydantic_data_converter))) ;;
  assign (set_client (Some c)) ;;
  self_client <- read client ;;
  queue <- read task_queue ;;
  n <- read max_concurrent_activities ;;
  pool <- lift (call (ThreadPoolExecutor_new n)) ;;
  w <- lift (call (Worker_new self_client queue [HttpWorkflow] [http_get] pool)) ;;
  assign (set_worker (Some w)) ;;
  queue <- read task_queue ;;
  url <- read temporal_server_url ;;
  lift (log_ (info "Temporal worker initialized - Task Queue: %s, Server: %s"
                [AStr queue; AStr url])) ;;
  self_worker <- read worker ;;
  w <- deref self_worker ;;
  lift (call (Worker_run w)).

(** [shutdown], lines 75-81. *)
Definition shutdown : meth TemporalWorkerTask unit :=
  lift (log_ (info "Shutting down Temporal worker..." [])) ;;
  self_worker <- read worker ;;
  match self_worker with
  | Some w => lift (call (Worker_shutdown w)) ;; mret tt
  | None => mret tt
  end ;;
  self_client <- read client ;;
  match self_client with
  | Some c => lift (call (Client_close c))
  | None => mret tt
  end.

Local Close Scope meth_scope.

(** *** run_ray_worker, lines 84-118 *)

(** The body of the [for] loop, lines 107-116. *)
Definition spawn (url queue : string) (n num_workers : Z)
    (worker_tasks : list objref) (i : Z) : py (list objref) :=
  log_ (info "Creating Ray worker task %d/%d" [AInt (i + 1); AInt num_workers]) ;;
  worker_task <- call (Actor_remote "TemporalWorkerTask" url queue n) ;;
  worker_ref <- call (Method_remote worker_task "start_worker") ;;
  ret (worker_tasks ++ [worker_ref])%list.

Fixpoint for_each {A B : Type} (body : B -> A -> py B) (xs : list A) (acc : B) : py B :=
  match xs with
  | [] => ret acc
  | x :: rest => acc' <- body acc x ;; for_each body rest acc'
  end.

Definition default_num_workers : Z := 3.

Definition run_ray_worker (url queue : string) (n num_workers : Z) : py (list objref) :=
  log_ (info "Starting %d Temporal worker(s) as Ray tasks..." [AInt num_workers]) ;;
  for_each (spawn url queue n num_workers) (range num_workers) [].

(** *** main, lines 121-150 *)

(** Line 139, the argument of [asyncio.gather]: [ray.get(task)] is evaluated
    for each task in turn while the list is built. *)
Definition ray_get_each (worker_tasks : list objref) : py (list value) :=
  for_each (fun aws task => v <- call (ray_get task) ;; ret (aws ++ [v])%list)
           worker_tasks [].

Definition main : py unit :=
  up <- call ray_is_initialized ;;
  (if negb up
   then log_ (info "Initializing Ray..." []) ;; call ray_init
   else ret tt) ;;
  try_finally
    (try_except
       (worker_tasks <- run_ray_worker "localhost:7233" "http-task-queue" 5
                                       default_num_workers ;;
        log_ (info "Ray workers started. Waiting for completion..." []) ;;
        aws <- ray_get_each worker_tasks ;;
        _ <- call (asyncio_gather aws) ;;
        ret tt)
       [ (is_KeyboardInterrupt,
          fun _ => log_ (info "Received interrupt signal, shutting down..." []));
         (is_Exception,
          fun e => log_ {| logger := __name__; lvl := ERROR;
                           fmt := "Error running Ray workers"; args := [] |} ;;
                   raise e) ])
    (up <- call ray_is_initialized ;;
     if up
     then log_ (info "Shutting down Ray..." []) ;; call ray_shutdown
     else ret tt).

End Worker.

(** ** Reading a trace *)

Module Trace.

(** The exception a call was answered with, if it was. *)
Definition raised_by (en : entry) : option exn :=
  match en with
  | ECall _ (Some (Raise e)) => Some e
  | _ => None
  end.

(** The exceptions the libraries raised, in order. *)
Fixpoint raised (t : trace) : list exn :=
  match t with
  | [] => []
  | en :: rest =>
      match raised_by en with
      | Some e => e :: raised rest
      | None => raised rest
      end
  end.

(** The library calls of a trace, without the log records. *)
Definition is_call (en : entry) : bool :=
  match en with ECall _ _ => true | ELog _ => false end.

Definition calls (t : trace) : trace := filter is_call t.

(** The [execute_activity] calls: activity and argument, and the timeouts. *)
Definition activity_call (en : entry) : option (qualname * string * timedelta) :=
  match en with
  | ECall e _ =>
      match e with
      | execute_activity a arg t => Some (a, arg, t)
      | _ => None
      end
  | ELog _ => None
  end.

Fixpoint pick {A : Type} (f : entry -> option A) (t : trace) : list A :=
  match t with
  | [] => []
  | en :: rest =>
      match f en with
      | Some a => a :: pick f rest
      | None => pick f rest
      end
  end.

Definition activity_calls (t : trace) : list (qualname * string) :=
  map fst (pick activity_call t).

Definition activity_timeouts (t : trace) : list timedelta :=
  map snd (pick activity_call t).

(** Replicas created: the keyword arguments of [TemporalWorkerTask.remote]. *)
Definition spawned (en : entry) : option (string * string * Z) :=
  match en with
  | ECall e _ =>
      match e with
      | Actor_remote _ u q n => Some (u, q, n)
      | _ => None
      end
  | ELog _ => None
  end.

(** [start_worker.remote()] calls: the actor they were issued on. *)
Definition started (en : entry) : option actor :=
  match en with
  | ECall e _ =>
      match e with
      | Method_remote a m => if String.eqb m "start_worker" then Some a else None
      | _ => None
      end
  | ELog _ => None
  end.

(** [ray.get] calls: the task reference waited on. *)
Definition waited (en : entry) : option objref :=
  match en with
  | ECall e _ =>
      match e with
      | ray_get r => Some r
      | _ => None
      end
  | ELog _ => None
  end.

(** [asyncio.gather] calls: what was handed to it. *)
Definition gathered (en : entry) : option (list value) :=
  match en with
  | ECall e _ =>
      match e with
      | asyncio_gather aws => Some aws
      | _ => None
      end
  | ELog _ => None
  end.

Definition is_ray_init (en : entry) : bool :=
  match en with
  | ECall e _ => match e with ray_init => true | _ => false end
  | ELog _ => false
  end.

Definition is_ray_shutdown (en : entry) : bool :=
  match en with
  | ECall e _ => match e with ray_shutdown => true | _ => false end
  | ELog _ => false
  end.

Definition is_spawn (en : entry) : bool :=
  match spawned en with Some _ => true | None => false end.

Definition is_wait (en : entry) : bool :=
  match waited en with Some _ => true | None => false end.

Definition count (p : entry -> bool) (t : trace) : nat := length (filter p t).

(** The actors [TemporalWorkerTask.remote] handed back, and the task
    references [start_worker.remote] handed back. *)
Definition created (en : entry) : option actor :=
  match en with
  | ECall e (Some (Ok x)) =>
      match e in libE X return X -> option actor with
      | Actor_remote _ _ _ _ => fun a => Some a
      | _ => fun _ => None
      end x
  | _ => None
  end.

Definition task_ref (en : entry) : option objref :=
  match en with
  | ECall e (Some (Ok x)) =>
      match e in libE X return X -> option objref with
      | Method_remote _ _ => fun r => Some r
      | _ => fun _ => None
      end x
  | _ => None
  end.

(** The [ray.get] calls that returned: the replica's task has ended. *)
Definition stopped (en : entry) : option objref :=
  match en with
  | ECall e (Some (Ok _)) =>
      match e with
      | ray_get r => Some r
      | _ => None
      end
  | _ => None
  end.

(** What the [ray.get] calls that returned handed back. *)
Definition returned (en : entry) : option value :=
  match en with
  | ECall e (Some (Ok x)) =>
      match e in libE X return X -> option value with
      | ray_get _ => fun v => Some v
      | _ => fun _ => None
      end x
  | _ => None
  end.

(** The entries before and after the first one that satisfies [p]. *)
Fixpoint split_at (p : entry -> bool) (t : trace) : option (trace * trace) :=
  match t with
  | [] => None
  | en :: rest =>
      if p en then Some ([], rest)
      else match split_at p rest with
           | Some (pre, post) => Some (en :: pre, post)
           | None => None
           end
  end.

(** A run swallows no error: it returns normally only if no library call
    raised, and what it raises is the last exception a library raised. *)
Definition propagates {R : Type} (t : trace) (f : ending (result R)) : Prop :=
  match f with
  | Done (Ok _) => raised t = []
  | Done (Raise e) => exists l, raised t = (l ++ [e])%list
  | Blocked => True
  end.

(** The same for a method, whose run also carries the object. *)
Definition outcome {R S : Type} (f : ending (result R * S)) : ending (result R) :=
  match f with
  | Done rs => Done (fst rs)
  | Blocked => Blocked
  end.

End Trace.
Import Trace.

(** ** The Ray runtime's initialisation flag *)

Module Ray.

(** [ray.is_initialized()] reports whether [ray.init()] has succeeded and
    [ray.shutdown()] has not been called since.  Everything else (whether
    [init] succeeds, what actors and tasks answer) is left to [rest]. *)
Definition runtime {U : Type} (rest : handler U) : handler (bool * U) :=
  fun X e w =>
    match e in libE X
          return option (result X * U) -> option (result X * (bool * U)) with
    | ray_is_initialized => fun _ => Some (Ok (fst w), w)
    | ray_init => fun d =>
        match d with
        | Some (Ok a, u) => Some (Ok a, (true, u))
        | Some (Raise ex, u) => Some (Raise ex, (fst w, u))
        | None => None
        end
    | ray_shutdown => fun d =>
        match d with
        | Some (a, u) => Some (a, (false, u))
        | None => None
        end
    | _ => fun d =>
        match d with
        | Some (a, u) => Some (a, (fst w, u))
        | None => None
        end
    end (rest X e (snd w)).

(** Ray is up while [main] runs: it was up at the start, or [ray.init()]
    returned. *)
Definition init_returned (en : entry) : bool :=
  match en with
  | ECall e (Some (Ok _)) => match e with ray_init => true | _ => false end
  | _ => false
  end.

Definition initialised (up : bool) (t : trace) : bool :=
  up || existsb init_returned t.

(** Creating an actor and submitting a method call never fail and never
    block (they only enqueue work). *)
Definition spawns_succeed {W : Type} (h : handler W) : Prop :=
  (forall (cls u q : string) (n : Z) (w : W),
      exists (a : actor) (w' : W), h _ (Actor_remote cls u q n) w = Some (Ok a, w')) /\
  (forall (a : actor) (m : string) (w : W),
      exists (r : objref) (w' : W), h _ (Method_remote a m) w = Some (Ok r, w')).

End Ray.

(** ** The endpoint and the orchestration service *)

Module Service.

(** Modelled from the spec: the external endpoint of section 4.1 ("performs
    one external network call and returns its textual body", "any network
    error ... surfaces as an activity failure").  An endpoint answers a GET
    after [latency] microseconds ([None]: never) with a status code and a
    body, or the call fails with a network error. *)
Record reply : Type :=
  { latency : option Z; answer : result (Z * string) }.

Definition network : Type := string -> reply.

(** The endpoint's answer arrives within [t] microseconds. *)
Definition completes_within (rep : reply) (t : Z) : bool :=
  match latency rep with
  | Some d => d <=? t
  | None => false
  end.

(** Modelled from the spec: aiohttp against such a network; the world is the
    time the activity has spent so far, in microseconds. *)
Definition aiohttp (net : network) : handler Z :=
  fun X e elapsed =>
    match e in libE X return option (result X * Z) with
    | ClientSession_enter => Some (Ok 0%nat, elapsed)
    | ClientSession_aexit _ _ => Some (Ok tt, elapsed)
    | Session_get_enter _ u =>
        match latency (net u) with
        | None => None
        | Some d =>
            match answer (net u) with
            | Ok (st, _) => Some (Ok {| status := st; url := u |}, elapsed + d)
            | Raise ex => Some (Raise ex, elapsed + d)
            end
        end
    | Response_aexit _ _ => Some (Ok tt, elapsed)
    | Response_text r =>
        match answer (net (url r)) with
        | Ok (_, body) => Some (Ok body, elapsed)
        | Raise ex => Some (Raise ex, elapsed)
        end
    | _ => None
    end.

(** Modelled from the spec: the orchestration service's dispatch of an
    activity (sections 4.2, 5 and 7 of the spec; temporalio itself is
    not part of the repository).  "A start-to-close timeout is a hard
    deadline": an activity that has not completed within it is a Timeout
    failure; one that fails in time is an Activity failure "carrying the
    original cause"; one that returns in time gives its result.  Retries
    are not specified (section 9, open question) and not modelled. *)
Definition dispatch (net : network) (a : qualname) (arg : string)
    (start_to_close_timeout : timedelta) : option (result string) :=
  if qualname_eqb a Activities.def_http_get then
    let r := exec (aiohttp net) (Activities.http_get arg) 0 in
    match final r with
    | Blocked => Some (Raise (Exc "TimeoutFailure"))
    | Done out =>
        if world r <=? total_microseconds start_to_close_timeout then
          match out with
          | Ok s => Some (Ok s)
          | Raise ex => Some (Raise (ExcFrom "ActivityFailure" ex))
          end
        else Some (Raise (Exc "TimeoutFailure"))
    end
  else None.

Definition service (net : network) : handler unit :=
  fun X e w =>
    match e in libE X return option (result X * unit) with
    | execute_activity a arg t =>
        match dispatch net a arg t with
        | Some r => Some (r, w)
        | None => None
        end
    | _ => None
    end.

(** Modelled from the spec: the blocking submission of section 6,
    [execute_workflow(WorkflowType, input, id, task_queue) -> result]; an
    unhandled failure inside the workflow function is a Workflow failure
    surfaced to the submitter (section 7 (c)). *)
Definition execute_workflow (net : network) (input : string) : ending (result string) :=
  match final (exec (service net) (HttpWorkflow.run input) tt) with
  | Blocked => Blocked
  | Done (Ok s) => Done (Ok s)
  | Done (Raise f) => Done (Raise (ExcFrom "WorkflowFailure" f))
  end.

End Service.

(** ** Concrete environments *)

Module Env.

Definition all_awaitable (aws : list value) : bool :=
  forallb (fun v => match v with VAwaitable _ => true | _ => false end) aws.

(** An environment in which every call returns at once and nothing fails;
    the world counts the calls answered and supplies fresh handles.
    [asyncio.gather] rejects an argument that is not awaitable. *)
Definition obliging : handler nat :=
  fun X e n =>
    match e in libE X return option (result X * nat) with
    | ClientSession_enter => Some (Ok n, S n)
    | ClientSession_aexit _ _ => Some (Ok tt, S n)
    | Session_get_enter _ u => Some (Ok {| status := 200; url := u |}, S n)
    | Response_aexit _ _ => Some (Ok tt, S n)
    | Response_text r => Some (Ok ("body of " ++ url r), S n)
    | execute_activity _ arg _ => Some (Ok ("body of " ++ arg), S n)
    | Client_connect _ _ => Some (Ok n, S n)
    | Client_execute_workflow _ arg _ _ => Some (Ok ("body of " ++ arg), S n)
    | Client_close _ => Some (Ok tt, S n)
    | ThreadPoolExecutor_new _ => Some (Ok n, S n)
    | Worker_new _ _ _ _ _ => Some (Ok n, S n)
    | Worker_run _ => Some (Ok tt, S n)
    | Worker_shutdown _ => Some (Ok (VAwaitable n), S n)
    | ray_is_initialized => Some (Ok false, S n)
    | ray_init => Some (Ok tt, S n)
    | ray_shutdown => Some (Ok tt, S n)
    | Actor_remote _ _ _ _ => Some (Ok n, S n)
    | Method_remote _ _ => Some (Ok n, S n)
    | ray_get _ => Some (Ok VNone, S n)
    | asyncio_gather aws =>
        if all_awaitable aws then Some (Ok aws, S n)
        else Some (Raise (Exc "TypeError"), S n)
    | print _ => Some (Ok tt, S n)
    end.

(** [h], except that the calls [p] selects never return. *)
Definition stuck {W : Type} (p : forall X, libE X -> bool) (h : handler W) : handler W :=
  fun X e w => if p X e then None else h X e w.

(** [h], except that the calls [p] selects raise [ex]. *)
Definition failing {W : Type} (p : forall X, libE X -> bool) (ex : exn)
    (h : handler W) : handler W :=
  fun X e w => if p X e then Some (Raise ex, w) else h X e w.

Definition is_Worker_run (X : Type) (e : libE X) : bool :=
  match e with Worker_run _ => true | _ => false end.




Definition is_ray_init (X : Type) (e : libE X) : bool :=
  match e with ray_init => true | _ => false end.

Definition is_ray_get_of (r : objref) (X : Type) (e : libE X) : bool :=
  match e with ray_get r' => Nat.eqb r r' | _ => false end.

(** [obliging], except that every GET is answered with status [st] and the
    text of every response is [b]. *)
Definition replying (st : Z) (b : string) : handler nat :=
  fun X e n =>
    match e in libE X return option (result X * nat) -> option (result X * nat) with
    | Session_get_enter _ u => fun _ => Some (Ok {| status := st; url := u |}, S n)
    | Response_text _ => fun _ => Some (Ok b, S n)
    | _ => fun d => d
    end (obliging e n).

(** Three replicas at work: the task of the first (reference 2) has not
    ended, so [ray.get] on it does not return; the second (reference 4) has
    already failed, so [ray.get] on it would raise at once. *)
Definition replicas_at_work : handler (bool * nat) :=
  Ray.runtime (stuck (is_ray_get_of 2%nat)
                 (failing (is_ray_get_of 4%nat) (Exc "RuntimeError") obliging)).

(** An endpoint that answers every GET after [d] microseconds with status
    [st] and body [b]. *)
Definition endpoint (d : Z) (st : Z) (b : string) : Service.network :=
  fun _ => {| Service.latency := Some d; Service.answer := Ok (st, b) |}.


End Env.

(** ** More ways to read a trace *)

Module Calls.

(** aiohttp: sessions and responses entered (the value handed back) and
    left (the object [__aexit__] was called on). *)
Definition session_opened (en : entry) : option session :=
  match en with
  | ECall e (Some (Ok x)) =>
      match e in libE X return X -> option session with
      | ClientSession_enter => fun s => Some s
      | _ => fun _ => None
      end x
  | _ => None
  end.

Definition session_closed (en : entry) : option session :=
  match en with
  | ECall e _ =>
      match e with
      | ClientSession_aexit s _ => Some s
      | _ => None
      end
  | ELog _ => None
  end.

Definition response_opened (en : entry) : option response :=
  match en with
  | ECall e (Some (Ok x)) =>
      match e in libE X return X -> option response with
      | Session_get_enter _ _ => fun r => Some r
      | _ => fun _ => None
      end x
  | _ => None
  end.

Definition response_released (en : entry) : option response :=
  match en with
  | ECall e _ =>
      match e with
      | Response_aexit r _ => Some r
      | _ => None
      end
  | ELog _ => None
  end.

Definition is_session_close (en : entry) : bool :=
  match session_closed en with Some _ => true | None => false end.

(** The URLs requested. *)
Definition requested (en : entry) : option string :=
  match en with
  | ECall e _ =>
      match e with
      | Session_get_enter _ u => Some u
      | _ => None
      end
  | ELog _ => None
  end.

(** temporalio: workers told to shut down, clients closed, servers
    connected to, and the task queues workflows were submitted on. *)
Definition worker_shut (en : entry) : option Lib.worker :=
  match en with
  | ECall e _ =>
      match e with
      | Worker_shutdown k => Some k
      | _ => None
      end
  | ELog _ => None
  end.

Definition client_closed (en : entry) : option Lib.client :=
  match en with
  | ECall e _ =>
      match e with
      | Client_close c => Some c
      | _ => None
      end
  | ELog _ => None
  end.

Definition connected (en : entry) : option string :=
  match en with
  | ECall e _ =>
      match e with
      | Client_connect target _ => Some target
      | _ => None
      end
  | ELog _ => None
  end.

Definition submitted (en : entry) : option (qualname * string) :=
  match en with
  | ECall e _ =>
      match e with
      | Client_execute_workflow wf _ _ q => Some (wf, q)
      | _ => None
      end
  | ELog _ => None
  end.

(** ray: the methods submitted on actors. *)
Definition method_called (en : entry) : option string :=
  match en with
  | ECall e _ =>
      match e with
      | Method_remote _ m => Some m
      | _ => None
      end
  | ELog _ => None
  end.

(** ray: the class of each actor created. *)
Definition actor_class (en : entry) : option string :=
  match en with
  | ECall e _ =>
      match e with
      | Actor_remote cls _ _ _ => Some cls
      | _ => None
      end
  | ELog _ => None
  end.

(** aiohttp: the texts [response.text()] handed back. *)
Definition text_read (en : entry) : option string :=
  match en with
  | ECall e (Some (Ok x)) =>
      match e in libE X return X -> option string with
      | Response_text _ => fun s => Some s
      | _ => fun _ => None
      end x
  | _ => None
  end.

(** What was printed, and the log records at level ERROR. *)
Definition printed (en : entry) : option string :=
  match en with
  | ECall e _ =>
      match e with
      | print s => Some s
      | _ => None
      end
  | ELog _ => None
  end.

Definition error_logged (en : entry) : bool :=
  match en with
  | ELog l => match lvl l with ERROR => true | INFO => false end
  | ECall _ _ => false
  end.

(** What a submitted workflow handed back. *)
Definition workflow_result (en : entry) : option string :=
  match en with
  | ECall e (Some (Ok x)) =>
      match e in libE X return X -> option string with
      | Client_execute_workflow _ _ _ _ => fun s => Some s
      | _ => fun _ => None
      end x
  | _ => None
  end.

(** What a run [r] of the loop of [run_ray_worker] over [todo] indices, or
    of one turn of it, has done, starting from the references [acc]: the
    actors it created are all of class [TemporalWorkerTask] and all got
    [kwargs]; the only method submitted is [start_worker], once on each
    actor created; when it returns, it returns [acc]
    with one reference per index; when it does not, some index is left. *)
Definition launched_so_far (kwargs : string * string * Z) (todo : nat)
    {W : Type} (acc : list objref) (r : run_ (result (list objref)) W) : Prop :=
  (exists m : nat,
      (m <= todo)%nat /\
      pick spawned (events r) = repeat kwargs m /\
      pick actor_class (events r) = repeat "TemporalWorkerTask" m) /\
  pick started (events r) = pick created (events r) /\
  pick method_called (events r) = repeat "start_worker" (length (pick created (events r))) /\
  pick waited (events r) = [] /\
  match final r with
  | Done (Ok refs) =>
      raised (events r) = [] /\
      refs = (acc ++ pick task_ref (events r))%list /\
      length (pick task_ref (events r)) = todo /\
      pick spawned (events r) = repeat kwargs todo
  | Done (Raise e) =>
      raised (events r) = [e] /\ (length (pick task_ref (events r)) < todo)%nat
  | Blocked =>
      raised (events r) = [] /\ (length (pick task_ref (events r)) < todo)%nat
  end.

Definition olist {A : Type} (o : option A) : list A :=
  match o with Some a => [a] | None => [] end.

(** Calls to single out in an environment. *)
Definition is_Response_text (X : Type) (e : libE X) : bool :=
  match e with Response_text _ => true | _ => false end.

Definition is_Response_aexit (X : Type) (e : libE X) : bool :=
  match e with Response_aexit _ _ => true | _ => false end.

Definition is_Worker_new (X : Type) (e : libE X) : bool :=
  match e with Worker_new _ _ _ _ _ => true | _ => false end.

Definition is_Worker_shutdown (X : Type) (e : libE X) : bool :=
  match e with Worker_shutdown _ => true | _ => false end.

Definition is_ray_get (X : Type) (e : libE X) : bool :=
  match e with ray_get _ => true | _ => false end.

Definition is_Actor_remote (X : Type) (e : libE X) : bool :=
  match e with Actor_remote _ _ _ _ => true | _ => false end.




End Calls.
Import Calls.

(** * Properties *)

Local Open Scope list_scope.

(** ** Running sequenced coroutines *)

Lemma exec_bind :
  forall (A B W : Type) (h : handler W) (p : prog A) (f : A -> prog B) (w : W),
    exec h (bind p f) w =
    match final (exec h p w) with
    | Blocked =>
        {| events := events (exec h p w); final := Blocked;
           world := world (exec h p w) |}
    | Done a =>
        {| events := (events (exec h p w)
                      ++ events (exec h (f a) (world (exec h p w))))%list;
           final := final (exec h (f a) (world (exec h p w)));
           world := world (exec h (f a) (world (exec h p w))) |}
    end.
Proof.
  intros A B W h p f. induction p as [a | l k IH | X e k IH]; intro w; simpl.
  - destruct (exec h (f a) w); reflexivity.
  - rewrite IH. destruct (final (exec h k w)); reflexivity.
  - destruct (h X e w) as [[a w1] |]; simpl; [| reflexivity].
    rewrite IH. destruct (final (exec h (k a) w1)); reflexivity.
Qed.

Lemma raised_app :
  forall t1 t2 : trace, raised (t1 ++ t2) = (raised t1 ++ raised t2)%list.
Proof.
  induction t1 as [| en t1 IH]; intro t2; simpl; [reflexivity |].
  destruct (raised_by en); simpl; rewrite IH; reflexivity.
Qed.

Lemma pick_app :
  forall (A : Type) (f : entry -> option A) (t1 t2 : trace),
    pick f (t1 ++ t2) = (pick f t1 ++ pick f t2)%list.
Proof.
  induction t1 as [| en t1 IH]; intro t2; simpl; [reflexivity |].
  destruct (f en); simpl; rewrite IH; reflexivity.
Qed.

(** Answer by answer: split on what the library says to the next call. *)
Ltac next_answer h :=
  match goal with
  | |- context [h ?X ?e ?w] =>
      let a := fresh "a" in
      let w' := fresh "w" in
      let E := fresh "E" in
      destruct (h X e w) as [[[a | a] w'] |] eqn:E; simpl
  end.

(** ** HttpWorkflow.run *)

(** A run of [HttpWorkflow.run] is its log record followed by one
    [execute_activity] call, and ends as that call ends. *)
Lemma run_exec :
  forall (W : Type) (h : handler W) (w : W) (u : string),
    exec h (HttpWorkflow.run u) w =
    match h _ (execute_activity HttpWorkflow.http_get u (timedelta_of_seconds 3)) w with
    | Some (a, w1) =>
        {| events :=
             [ELog {| logger := HttpWorkflow.workflow_logger; lvl := INFO;
                      fmt := "Workflow: triggering HTTP GET activity to %s";
                      args := [AStr u] |};
              ECall (execute_activity HttpWorkflow.http_get u (timedelta_of_seconds 3))
                    (Some a)];
           final := Done a; world := w1 |}
    | None =>
        {| events :=
             [ELog {| logger := HttpWorkflow.workflow_logger; lvl := INFO;
                      fmt := "Workflow: triggering HTTP GET activity to %s";
                      args := [AStr u] |};
              ECall (execute_activity HttpWorkflow.http_get u (timedelta_of_seconds 3))
                    None];
           final := Blocked; world := w |}
    end.
Proof.
  intros W h w u. unfold HttpWorkflow.run. simpl.
  destruct (h _ _ w) as [[a w1] |]; reflexivity.
Qed.

(** C1. For every URL [u], [HttpWorkflow.run u] calls [execute_activity]
    exactly once, on the activity [http_get] of activities.py with [u] as its
    argument, and when the activity returns the string [s] the workflow
    returns [s] itself. *)
Theorem run_calls_http_get_once_and_returns_its_result :
  forall (W : Type) (h : handler W) (w : W) (u : string),
    Repo.import_from HttpWorkflow.http_get = Ok Activities.def_http_get /\
    activity_calls (events (exec h (HttpWorkflow.run u) w))
      = [(Activities.def_http_get, u)] /\
    (forall (s : string) (w1 : W),
        h _ (execute_activity HttpWorkflow.http_get u (timedelta_of_seconds 3)) w
          = Some (Ok s, w1) ->
        final (exec h (HttpWorkflow.run u) w) = Done (Ok s)).
Proof.
  intros W h w u. split; [reflexivity |]. split.
  - rewrite run_exec. destruct (h _ _ w) as [[a w1] |]; reflexivity.
  - intros s w1 H. rewrite run_exec, H. reflexivity.
Qed.

Lemma run_calls_http_get_once_and_returns_its_result_witness :
  activity_calls (events (exec Env.obliging (HttpWorkflow.run "https://example.test/ping") 0%nat))
    = [(Activities.def_http_get, "https://example.test/ping")] /\
  final (exec Env.obliging (HttpWorkflow.run "https://example.test/ping") 0%nat)
    = Done (Ok "body of https://example.test/ping").
Proof.
  destruct (run_calls_http_get_once_and_returns_its_result
              Env.obliging 0%nat "https://example.test/ping") as [_ [Hc Hr]].
  split; [exact Hc |].
  apply (Hr "body of https://example.test/ping" 1%nat). reflexivity.
Defined.

(** C2. The one activity call of [HttpWorkflow.run] carries a start-to-close
    timeout of exactly 3 seconds; a failure delivered for that call is the
    workflow's own ending, and against the service of the spec an endpoint
    that does not answer within the 3 seconds ends the workflow with a
    Timeout failure: the run is [Done], not [Blocked], and not [Ok]. *)
Theorem run_bounds_the_activity_by_a_3s_timeout :
  forall u : string,
    (forall (W : Type) (h : handler W) (w : W),
        activity_timeouts (events (exec h (HttpWorkflow.run u) w))
          = [timedelta_of_seconds 3]) /\
    total_microseconds (timedelta_of_seconds 3) = 3000000 /\
    (forall (W : Type) (h : handler W) (w w1 : W) (f : exn),
        h _ (execute_activity HttpWorkflow.http_get u (timedelta_of_seconds 3)) w
          = Some (Raise f, w1) ->
        final (exec h (HttpWorkflow.run u) w) = Done (Raise f)) /\
    (forall net : Service.network,
        Service.completes_within (net u) 3000000 = false ->
        final (exec (Service.service net) (HttpWorkflow.run u) tt)
          = Done (Raise (Exc "TimeoutFailure")) /\
        Service.execute_workflow net u
          = Done (Raise (ExcFrom "WorkflowFailure" (Exc "TimeoutFailure")))).
Proof.
  intro u. split; [| split; [reflexivity | split]].
  - intros W h w. rewrite run_exec. destruct (h _ _ w) as [[a w1] |]; reflexivity.
  - intros W h w w1 f H. rewrite run_exec, H. reflexivity.
  - intros net Hlate.
    assert (Hd : Service.dispatch net HttpWorkflow.http_get u (timedelta_of_seconds 3)
                 = Some (Raise (Exc "TimeoutFailure"))).
    { unfold Service.dispatch, Service.completes_within in *.
      change (qualname_eqb HttpWorkflow.http_get Activities.def_http_get) with true.
      cbv iota. unfold Activities.http_get. simpl.
      destruct (Service.latency (net u)) as [d |]; [| reflexivity].
      destruct (Service.answer (net u)) as [[st body] | ex] eqn:Ea; simpl.
      - rewrite Ea. simpl.
        change (total_microseconds (timedelta_of_seconds 3)) with 3000000.
        rewrite ?Z.add_0_l, Hlate. reflexivity.
      - change (total_microseconds (timedelta_of_seconds 3)) with 3000000.
        rewrite ?Z.add_0_l, Hlate. reflexivity. }
    unfold Service.execute_workflow. rewrite run_exec.
    unfold Service.service. rewrite Hd. split; reflexivity.
Qed.

Lemma run_bounds_the_activity_by_a_3s_timeout_witness :
  Service.completes_within
    (Env.endpoint 5000000 200 "late" "https://example.test/slow") 3000000 = false /\
  Service.execute_workflow (Env.endpoint 5000000 200 "late") "https://example.test/slow"
    = Done (Raise (ExcFrom "WorkflowFailure" (Exc "TimeoutFailure"))).
Proof.
  split; [reflexivity |].
  destruct (run_bounds_the_activity_by_a_3s_timeout "https://example.test/slow")
    as [_ [_ [_ H]]].
  apply (H (Env.endpoint 5000000 200 "late")). reflexivity.
Defined.

(** ** http_get *)

(** [http_get] has no [try] of its own: whatever a library call inside it
    raises ends it, and it returns only when none raised. *)
Lemma http_get_propagates :
  forall (W : Type) (h : handler W) (w : W) (u : string),
    propagates (events (exec h (Activities.http_get u) w))
               (final (exec h (Activities.http_get u) w)).
Proof.
  intros W h w u. unfold Activities.http_get, propagates. simpl.
  repeat (next_answer h);
    first [ reflexivity | exact I
          | (eexists []; reflexivity)
          | (eexists [_]; reflexivity)
          | (eexists [_; _]; reflexivity)
          | (eexists [_; _; _]; reflexivity) ].
Qed.

Lemma in_last : forall (A : Type) (l : list A) (a : A), In a (l ++ [a]).
Proof. intros A l a. apply in_or_app. right. left. reflexivity. Qed.

(** When every call is answered normally, [http_get] returns the text of the
    response, whatever the response is. *)
Lemma http_get_returns_text :
  forall (W : Type) (h : handler W) (u : string) (w w1 w2 w3 w4 w5 : W)
         (s : session) (resp : response) (body : string),
    h _ ClientSession_enter w = Some (Ok s, w1) ->
    h _ (Session_get_enter s u) w1 = Some (Ok resp, w2) ->
    h _ (Response_text resp) w2 = Some (Ok body, w3) ->
    h _ (Response_aexit resp None) w3 = Some (Ok tt, w4) ->
    h _ (ClientSession_aexit s None) w4 = Some (Ok tt, w5) ->
    final (exec h (Activities.http_get u) w) = Done (Ok body).
Proof.
  intros W h u w w1 w2 w3 w4 w5 s resp body H1 H2 H3 H4 H5.
  unfold Activities.http_get. simpl.
  rewrite H1. simpl. rewrite H2. simpl. rewrite H3. simpl.
  rewrite H4. simpl. rewrite H5. reflexivity.
Qed.

(** Against the service of the spec, an endpoint that answers in time gives
    the workflow its body, whatever the status code. *)
Lemma execute_workflow_in_time :
  forall (net : Service.network) (u : string) (d st : Z) (body : string),
    Service.latency (net u) = Some d ->
    Service.answer (net u) = Ok (st, body) ->
    d <= 3000000 ->
    Service.execute_workflow net u = Done (Ok body).
Proof.
  intros net u d st body Hl Ha Hd.
  unfold Service.execute_workflow. rewrite run_exec.
  unfold Service.service, Service.dispatch.
  change (qualname_eqb HttpWorkflow.http_get Activities.def_http_get) with true.
  cbv iota. unfold Activities.http_get. simpl.
  rewrite Hl, Ha. simpl. rewrite Ha. simpl.
  change (total_microseconds (timedelta_of_seconds 3)) with 3000000.
  rewrite ?Z.add_0_l. apply Z.leb_le in Hd. rewrite Hd. reflexivity.
Qed.


(** C10, as the code has it.  [http_get] never looks at the status: whatever
    response [session.get] hands back, 404 and 500 included, it returns the
    text of that response as a normal result whenever reading the text and
    leaving the response and the session succeed, and a body it returns is
    exactly the text read.  It fails exactly when one of its aiohttp calls
    raises, and then with an exception such a call raised: so it can fail
    on a response it has obtained, but never because of a status.  Against
    the service of the spec a workflow on an endpoint that answers in time
    with any status completes with the body. *)
Theorem http_get_returns_the_body_whatever_the_status :
  forall u : string,
    (forall (W : Type) (h : handler W) (w w1 w2 w3 w4 w5 : W)
            (s : session) (resp : response) (body : string),
        h _ ClientSession_enter w = Some (Ok s, w1) ->
        h _ (Session_get_enter s u) w1 = Some (Ok resp, w2) ->
        h _ (Response_text resp) w2 = Some (Ok body, w3) ->
        h _ (Response_aexit resp None) w3 = Some (Ok tt, w4) ->
        h _ (ClientSession_aexit s None) w4 = Some (Ok tt, w5) ->
        final (exec h (Activities.http_get u) w) = Done (Ok body)) /\
    (forall (W : Type) (h : handler W) (w : W) (e : exn),
        final (exec h (Activities.http_get u) w) = Done (Raise e) ->
        In e (raised (events (exec h (Activities.http_get u) w)))) /\
    (forall (net : Service.network) (d st : Z) (body : string),
        Service.latency (net u) = Some d ->
        Service.answer (net u) = Ok (st, body) ->
        d <= 3000000 ->
        Service.execute_workflow net u = Done (Ok body)) /\
    (forall (W : Type) (h : handler W) (w : W) (body : string),
        final (exec h (Activities.http_get u) w) = Done (Ok body) ->
        pick text_read (events (exec h (Activities.http_get u) w)) = [body] /\
        pick requested (events (exec h (Activities.http_get u) w)) = [u]) /\
    (forall (W : Type) (h : handler W) (w : W) (x : result string),
        final (exec h (Activities.http_get u) w) = Done x ->
        ((exists e : exn, x = Raise e) <->
         raised (events (exec h (Activities.http_get u) w)) <> [])).
Proof.
  intro u. split; [| split; [| split; [| split]]].
  - intros. eapply http_get_returns_text; eassumption.
  - intros W h w e H.
    pose proof (http_get_propagates h w u) as P. unfold propagates in P.
    rewrite H in P. destruct P as [l Hl]. rewrite Hl. apply in_last.
  - intros. eapply execute_workflow_in_time; eassumption.
  - intros W h w body. unfold Activities.http_get. simpl.
    repeat (next_answer h); intro H; try discriminate;
      injection H as <-; split; reflexivity.
  - intros W h w x H.
    pose proof (http_get_propagates h w u) as P. unfold propagates in P.
    rewrite H in P. destruct x as [body | e].
    + rewrite P. split; [intros [e He]; discriminate | intro Hn; now elim Hn].
    + destruct P as [l Hl]. rewrite Hl. split.
      * intros _ Hnil. destruct l; discriminate.
      * intros _. exists e. reflexivity.
Qed.

(** A response with status 404 is obtained, reading its body fails, and
    [http_get] raises: it does not fail only when no response is obtained. *)
Lemma http_get_can_fail_on_a_response_it_obtained :
  pick response_opened
    (events (exec (Env.failing is_Response_text (Exc "ClientPayloadError")
                     (Env.replying 404 "Not Found"))
                  (Activities.http_get "https://example.test/missing") 0%nat))
    = [{| status := 404; url := "https://example.test/missing" |}] /\
  final (exec (Env.failing is_Response_text (Exc "ClientPayloadError")
                 (Env.replying 404 "Not Found"))
              (Activities.http_get "https://example.test/missing") 0%nat)
    = Done (Raise (Exc "ClientPayloadError")).
Proof. split; reflexivity. Qed.

Lemma http_get_returns_the_body_whatever_the_status_witness :
  final (exec (Env.replying 404 "Not Found")
              (Activities.http_get "https://example.test/missing") 0%nat)
    = Done (Ok "Not Found") /\
  Service.execute_workflow (Env.endpoint 1000000 404 "Not Found") "https://example.test/missing"
    = Done (Ok "Not Found") /\
  Service.execute_workflow (Env.endpoint 1000000 500 "Internal Server Error")
    "https://example.test/broken" = Done (Ok "Internal Server Error").
Proof.
  split; [| split].
  - destruct (http_get_returns_the_body_whatever_the_status "https://example.test/missing")
      as [H _].
    apply (H nat (Env.replying 404 "Not Found") 0 1 2 3 4 5 0
             {| status := 404; url := "https://example.test/missing" |} "Not Found")%nat;
      reflexivity.
  - destruct (http_get_returns_the_body_whatever_the_status "https://example.test/missing")
      as [_ [_ [H _]]].
    apply (H (Env.endpoint 1000000 404 "Not Found") 1000000 404 "Not Found");
      [reflexivity | reflexivity | lia].
  - destruct (http_get_returns_the_body_whatever_the_status "https://example.test/broken")
      as [_ [_ [H _]]].
    apply (H (Env.endpoint 1000000 500 "Internal Server Error") 1000000 500
             "Internal Server Error"); [reflexivity | reflexivity | lia].
Defined.







(** ** TemporalWorkerTask *)









(** What [start_worker] does when the libraries answer: it connects with the
    object's server address, builds a pool of the object's size and a worker
    on the object's task queue with the names lines 16-17 import, stores
    client and worker, and calls [run] on the worker. *)
Lemma start_worker_calls :
  forall (W : Type) (h : handler W) (w w1 w2 w3 : W) (self : Worker.TemporalWorkerTask)
         (c : Lib.client) (pool : executor) (k : Lib.worker),
    h _ (Client_connect (Worker.temporal_server_url self)
           (Some Worker.pydantic_data_converter)) w = Some (Ok c, w1) ->
    h _ (ThreadPoolExecutor_new (Worker.max_concurrent_activities self)) w1
      = Some (Ok pool, w2) ->
    h _ (Worker_new (Some c) (Worker.task_queue self)
           [Worker.HttpWorkflow] [Worker.http_get] pool) w2 = Some (Ok k, w3) ->
    exec h (Worker.start_worker self) w =
    let self' := Worker.set_worker (Some k) (Worker.set_client (Some c) self) in
    let before :=
      [ELog (Worker.info "Starting Temporal worker on Ray task..." []);
       ECall (Client_connect (Worker.temporal_server_url self)
                (Some Worker.pydantic_data_converter)) (Some (Ok c));
       ECall (ThreadPoolExecutor_new (Worker.max_concurrent_activities self))
             (Some (Ok pool));
       ECall (Worker_new (Some c) (Worker.task_queue self)
                [Worker.HttpWorkflow] [Worker.http_get] pool) (Some (Ok k));
       ELog (Worker.info "Temporal worker initialized - Task Queue: %s, Server: %s"
               [AStr (Worker.task_queue self);
                AStr (Worker.temporal_server_url self)])] in
    match h _ (Worker_run k) w3 with
    | None =>
        {| events := before ++ [ECall (Worker_run k) None];
           final := Blocked; world := w3 |}
    | Some (a, w4) =>
        {| events := before ++ [ECall (Worker_run k) (Some a)];
           final := Done (a, self'); world := w4 |}
    end.
Proof.
  intros W h w w1 w2 w3 self c pool k H1 H2 H3.
  unfold Worker.start_worker. simpl.
  rewrite H1. simpl. rewrite H2. simpl. rewrite H3. simpl.
  destruct (h _ (Worker_run k) w3) as [[a w4] |]; reflexivity.
Qed.

(** C4. Loading worker.py fails: line 16 imports [http_get] from
    [src.workflows.http.http_activities], and the repository has no such
    module (the activity is defined in [src.workflows.http.activities], from
    where http_workflow.py imports it, and that file loads).  The activity
    name [start_worker] would register is therefore not the repository's
    activity. *)
Theorem worker_module_imports_a_missing_module :
  Worker.load = Raise (Exc "ModuleNotFoundError") /\
  HttpWorkflow.load = Ok tt /\
  Repo.import_from Activities.def_http_get = Ok Activities.def_http_get /\
  qualname_eqb Worker.http_get Activities.def_http_get = false.
Proof. repeat split. Qed.

(** ** run_ray_worker *)

Lemma exec_pbind :
  forall (A B W : Type) (h : handler W) (p : py A) (f : A -> py B) (w : W),
    exec h (pbind p f) w =
    match final (exec h p w) with
    | Done (Ok a) =>
        {| events := events (exec h p w)
                     ++ events (exec h (f a) (world (exec h p w)));
           final := final (exec h (f a) (world (exec h p w)));
           world := world (exec h (f a) (world (exec h p w))) |}
    | Done (Raise e) =>
        {| events := events (exec h p w); final := Done (Raise e);
           world := world (exec h p w) |}
    | Blocked =>
        {| events := events (exec h p w); final := Blocked;
           world := world (exec h p w) |}
    end.
Proof.
  intros A B W h p f w. unfold pbind. rewrite exec_bind.
  destruct (final (exec h p w)) as [[a | e] |]; simpl;
    [reflexivity | rewrite app_nil_r; reflexivity | reflexivity].
Qed.

Lemma range_length : forall n : Z, length (range n) = Z.to_nat n.
Proof. intro n. unfold range. rewrite length_map, length_seq. reflexivity. Qed.

Section Spawning.

Context {W : Type} (h : handler W).
Hypothesis ray_accepts : Ray.spawns_succeed h.
Variables (url queue : string) (n K : Z).

(** One turn of the loop: a replica is created with the keyword arguments
    given, its [start_worker] is submitted, and the reference is appended. *)
Lemma spawn_exec :
  forall (i : Z) (acc : list objref) (w w1 w2 : W) (a : actor) (r : objref),
    @h _ (Actor_remote "TemporalWorkerTask" url queue n) w = Some (Ok a, w1) ->
    @h _ (Method_remote a "start_worker") w1 = Some (Ok r, w2) ->
    exec h (Worker.spawn url queue n K acc i) w =
    {| events :=
         [ELog (Worker.info "Creating Ray worker task %d/%d" [AInt (i + 1); AInt K]);
          ECall (Actor_remote "TemporalWorkerTask" url queue n) (Some (Ok a));
          ECall (Method_remote a "start_worker") (Some (Ok r))];
       final := Done (Ok (acc ++ [r]));
       world := w2 |}.
Proof.
  intros i acc w w1 w2 a r Ha Hr.
  unfold Worker.spawn. simpl. rewrite Ha. simpl. rewrite Hr. reflexivity.
Qed.

(** The whole loop, by induction on the indices still to go. *)
Lemma spawn_loop :
  forall (idx : list Z) (acc : list objref) (w : W),
    exists refs : list objref,
      final (exec h (Worker.for_each (Worker.spawn url queue n K) idx acc) w)
        = Done (Ok (acc ++ refs)) /\
      length refs = length idx /\
      pick task_ref
        (events (exec h (Worker.for_each (Worker.spawn url queue n K) idx acc) w))
        = refs /\
      length (pick created
        (events (exec h (Worker.for_each (Worker.spawn url queue n K) idx acc) w)))
        = length idx /\
      pick started
        (events (exec h (Worker.for_each (Worker.spawn url queue n K) idx acc) w))
        = pick created
            (events (exec h (Worker.for_each (Worker.spawn url queue n K) idx acc) w)) /\
      pick spawned
        (events (exec h (Worker.for_each (Worker.spawn url queue n K) idx acc) w))
        = repeat (url, queue, n) (length idx) /\
      pick actor_class
        (events (exec h (Worker.for_each (Worker.spawn url queue n K) idx acc) w))
        = repeat "TemporalWorkerTask" (length idx) /\
      pick method_called
        (events (exec h (Worker.for_each (Worker.spawn url queue n K) idx acc) w))
        = repeat "start_worker" (length idx).
Proof.
  destruct ray_accepts as [Hcreate Hstart].
  induction idx as [| i rest IH]; intros acc w.
  - exists []. simpl. rewrite app_nil_r. repeat split; reflexivity.
  - destruct (Hcreate "TemporalWorkerTask" url queue n w) as (a & w1 & Ha).
    destruct (Hstart a "start_worker" w1) as (r & w2 & Hr).
    destruct (IH (acc ++ [r]) w2)
      as (refs & Hf & Hlen & Hrefs & Hc & Hs & Hk & Hcls & Hm).
    exists (r :: refs).
    change (Worker.for_each (Worker.spawn url queue n K) (i :: rest) acc)
      with (pbind (Worker.spawn url queue n K acc i)
                  (fun acc' => Worker.for_each (Worker.spawn url queue n K) rest acc')).
    rewrite exec_pbind, (spawn_exec i acc Ha Hr).
    cbn [final events world].
    rewrite !pick_app. simpl.
    rewrite Hf, Hrefs, Hc, Hs, Hk, Hcls, Hm, Hlen, <- app_assoc.
    repeat split; reflexivity.
Qed.

End Spawning.

(** C5. For [num_workers = K >= 1], with a Ray that accepts every actor and
    task, [run_ray_worker] creates exactly K actors, each of class
    [TemporalWorkerTask] and each with exactly the server address,
    task-queue name and pool size passed in, so all K share the task-queue
    name; the only method it submits is [start_worker], K times, once on
    each of the K actors it created; it returns a list of exactly K task
    references, the ones those K [start_worker.remote()] calls handed back;
    and the object so constructed has those three values and nothing
    connected. *)
Theorem run_ray_worker_launches_K_replicas :
  forall (W : Type) (h : handler W) (w : W) (url queue : string) (n K : Z),
    1 <= K ->
    Ray.spawns_succeed h ->
    exists refs : list objref,
      final (exec h (Worker.run_ray_worker url queue n K) w) = Done (Ok refs) /\
      Z.of_nat (length refs) = K /\
      pick task_ref (events (exec h (Worker.run_ray_worker url queue n K) w)) = refs /\
      Z.of_nat (length (pick created
                  (events (exec h (Worker.run_ray_worker url queue n K) w)))) = K /\
      pick started (events (exec h (Worker.run_ray_worker url queue n K) w))
        = pick created (events (exec h (Worker.run_ray_worker url queue n K) w)) /\
      pick spawned (events (exec h (Worker.run_ray_worker url queue n K) w))
        = repeat (url, queue, n) (Z.to_nat K) /\
      Worker.replica (url, queue, n)
        = {| Worker.temporal_server_url := url;
             Worker.task_queue := queue;
             Worker.max_concurrent_activities := n;
             Worker.client := None;
             Worker.worker := None |} /\
      pick actor_class (events (exec h (Worker.run_ray_worker url queue n K) w))
        = repeat "TemporalWorkerTask" (Z.to_nat K) /\
      pick method_called (events (exec h (Worker.run_ray_worker url queue n K) w))
        = repeat "start_worker" (Z.to_nat K).
Proof.
  intros W h w url queue n K HK Hs.
  destruct (spawn_loop Hs url queue n K (range K) [] w)
    as (refs & Hf & Hlen & Hrefs & Hc & Hst & Hk & Hcls & Hm).
  rewrite range_length in Hlen, Hc, Hk, Hcls, Hm.
  exists refs. unfold Worker.run_ray_worker. simpl.
  rewrite Hf, Hrefs, Hc, Hst, Hk, Hcls, Hm, Hlen, Z2Nat.id by lia.
  repeat split; reflexivity.
Qed.

Lemma run_ray_worker_launches_K_replicas_witness :
  exists refs : list objref,
    final (exec Env.obliging
             (Worker.run_ray_worker "localhost:7233" "http-task-queue" 5 3) 0%nat)
      = Done (Ok refs) /\
    Z.of_nat (length refs) = 3 /\
    pick method_called
      (events (exec Env.obliging
                 (Worker.run_ray_worker "localhost:7233" "http-task-queue" 5 3) 0%nat))
      = ["start_worker"; "start_worker"; "start_worker"].
Proof.
  destruct (run_ray_worker_launches_K_replicas (h := Env.obliging) 0%nat
              "localhost:7233" "http-task-queue" 5 (K := 3))
    as (refs & Hf & Hlen & _ & _ & _ & _ & _ & _ & Hm).
  - lia.
  - split; intros; eexists; eexists; reflexivity.
  - exists refs. split; [assumption |]. split; [assumption | exact Hm].
Defined.

(** ** main of worker.py *)

(** Every way the libraries can answer [main], one call after the other; an
    exception is split by the [except] clause it meets. *)
Ltac every_answer h :=
  repeat first
    [ next_answer h
    | match goal with
      | |- context [is_KeyboardInterrupt ?a] => destruct a; simpl
      | |- context [is_Exception ?a] => destruct a; simpl
      | |- context [match ?a with KeyboardInterrupt => _ | _ => _ end] =>
          destruct a; simpl
      end ].

Ltac settle_run :=
  simpl;
  repeat match goal with |- _ /\ _ => split end;
  first
    [ reflexivity
    | exact I
    | (unfold count; simpl; lia)
    | (intros; discriminate)
    | (left; reflexivity)
    | (right; reflexivity)
    | (left; split; reflexivity)
    | (right; discriminate) ].

(** Every run of [main] against a Ray runtime whose [is_initialized] tells
    the truth, observed through the calls it makes. *)
Lemma main_runs :
  forall (U : Type) (rest : handler U) (up : bool) (u : U)
         (r : run_ (result unit) (bool * U)),
    r = exec (Ray.runtime rest) Worker.main (up, u) ->
    (count is_ray_init (events r) = (if up then 0 else 1)%nat /\
     match split_at is_ray_init (events r) with
     | Some (pre, _) => count is_spawn pre = 0%nat
     | None => True
     end /\
     (count is_ray_shutdown (events r) <= 1)%nat /\
     match split_at is_ray_shutdown (events r) with
     | Some (pre, post) =>
         post = [] /\
         ((length (pick spawned pre) = Z.to_nat Worker.default_num_workers /\
           pick stopped pre = pick task_ref pre)
          \/ raised pre <> [])
     | None => True
     end /\
     (forall x : result unit,
         final r = Done x ->
         Ray.initialised up (events r) = true ->
         count is_ray_shutdown (events r) = 1%nat)) /\
    (match split_at is_wait (events r) with
     | Some (pre, post) =>
         length (pick spawned pre) = Z.to_nat Worker.default_num_workers /\
         pick started pre = pick created pre /\
         count is_spawn post = 0%nat
     | None => True
     end /\
     pick waited (events r)
       = firstn (length (pick waited (events r))) (pick task_ref (events r)) /\
     (length (pick waited (events r)) <= S (length (pick stopped (events r))))%nat /\
     (pick gathered (events r) = [] \/
      pick gathered (events r) = [pick returned (events r)])).
Proof.
  intros U rest up u r. unfold Worker.main.
  destruct up; simpl; every_answer rest; intros ->; settle_run.
Qed.



(** C8. Three replicas at work, the first still polling and the second
    already failed: [main] has launched all three, sits in [ray.get] on the
    first, has not looked at the second and has not reached
    [asyncio.gather].  In every run the [ray.get] calls follow the launch
    order with at most one of them outstanding, and [asyncio.gather], when
    it is reached, is handed the values [ray.get] returned. *)
Theorem main_waits_for_the_replicas_one_at_a_time :
  (pick task_ref (events (exec Env.replicas_at_work Worker.main (false, 0%nat)))
     = [2; 4; 6]%nat /\
   pick waited (events (exec Env.replicas_at_work Worker.main (false, 0%nat)))
     = [2%nat] /\
   pick gathered (events (exec Env.replicas_at_work Worker.main (false, 0%nat)))
     = [] /\
   final (exec Env.replicas_at_work Worker.main (false, 0%nat)) = Blocked) /\
  pick gathered (events (exec (Ray.runtime Env.obliging) Worker.main (false, 0%nat)))
    = [[VNone; VNone; VNone]] /\
  (forall (U : Type) (rest : handler U) (up : bool) (u : U),
      pick waited (events (exec (Ray.runtime rest) Worker.main (up, u)))
        = firstn (length (pick waited
                            (events (exec (Ray.runtime rest) Worker.main (up, u)))))
                 (pick task_ref (events (exec (Ray.runtime rest) Worker.main (up, u)))) /\
      (length (pick waited (events (exec (Ray.runtime rest) Worker.main (up, u))))
         <= S (length (pick stopped
                         (events (exec (Ray.runtime rest) Worker.main (up, u))))))%nat /\
      (pick gathered (events (exec (Ray.runtime rest) Worker.main (up, u))) = [] \/
       pick gathered (events (exec (Ray.runtime rest) Worker.main (up, u)))
         = [pick returned (events (exec (Ray.runtime rest) Worker.main (up, u)))])).
Proof.
  split; [repeat split; reflexivity |].
  split; [reflexivity |].
  intros U rest up u.
  destruct (main_runs (rest := rest) (up := up) (u := u) eq_refl) as [_ [_ H]]. exact H.
Qed.

(** * Further properties *)

(** ** http_get: what it acquires, requests and releases *)

(** X1. In every run of [http_get] that ends, the sessions closed are the
    sessions opened and the responses released are the responses opened; a
    response is never released after its session was closed; and, ending or
    not, nothing is closed or released that was not opened. *)
Theorem http_get_releases_what_it_acquires :
  forall (W : Type) (h : handler W) (w : W) (u : string),
    (forall x : result string,
        final (exec h (Activities.http_get u) w) = Done x ->
        pick session_closed (events (exec h (Activities.http_get u) w))
          = pick session_opened (events (exec h (Activities.http_get u) w)) /\
        pick response_released (events (exec h (Activities.http_get u) w))
          = pick response_opened (events (exec h (Activities.http_get u) w))) /\
    match split_at is_session_close (events (exec h (Activities.http_get u) w)) with
    | Some (_, post) => pick response_released post = []
    | None => True
    end /\
    (pick session_closed (events (exec h (Activities.http_get u) w)) = [] \/
     pick session_closed (events (exec h (Activities.http_get u) w))
       = pick session_opened (events (exec h (Activities.http_get u) w))) /\
    (pick response_released (events (exec h (Activities.http_get u) w)) = [] \/
     pick response_released (events (exec h (Activities.http_get u) w))
       = pick response_opened (events (exec h (Activities.http_get u) w))).
Proof.
  intros W h w u. unfold Activities.http_get. simpl.
  repeat (next_answer h);
    (split; [intros x Hx; first [discriminate | split; reflexivity] |]);
    (split; [first [reflexivity | exact I] |]);
    split; first [left; reflexivity | right; reflexivity].
Qed.

Lemma http_get_releases_what_it_acquires_witness :
  pick session_closed
    (events (exec Env.obliging (Activities.http_get "https://example.test/ping") 0%nat))
    = [0%nat] /\
  pick response_released
    (events (exec Env.obliging (Activities.http_get "https://example.test/ping") 0%nat))
    = [{| status := 200; url := "https://example.test/ping" |}].
Proof.
  destruct (http_get_releases_what_it_acquires Env.obliging 0%nat
              "https://example.test/ping") as [H _].
  destruct (H (Ok "body of https://example.test/ping") eq_refl) as [Hs Hr].
  split; [exact Hs | exact Hr].
Defined.

(** X2. [http_get] makes at most one request, to exactly the URL it was
    given, and never repeats it: the requests of a run are none (the session
    could not be opened) or that one URL, and a run that returns a body has
    made the request. *)
Theorem http_get_requests_its_url_at_most_once :
  forall (W : Type) (h : handler W) (w : W) (u : string),
    (pick requested (events (exec h (Activities.http_get u) w)) = [] \/
     pick requested (events (exec h (Activities.http_get u) w)) = [u]) /\
    (forall body : string,
        final (exec h (Activities.http_get u) w) = Done (Ok body) ->
        pick requested (events (exec h (Activities.http_get u) w)) = [u]).
Proof.
  intros W h w u. unfold Activities.http_get. simpl.
  repeat (next_answer h);
    (split; [first [left; reflexivity | right; reflexivity]
            | intros body Hb; first [discriminate | reflexivity]]).
Qed.

Lemma http_get_requests_its_url_at_most_once_witness :
  pick requested
    (events (exec Env.obliging (Activities.http_get "https://example.test/ping") 0%nat))
    = ["https://example.test/ping"].
Proof.
  destruct (http_get_requests_its_url_at_most_once Env.obliging 0%nat
              "https://example.test/ping") as [_ H].
  apply (H "body of https://example.test/ping"). reflexivity.
Defined.

(** X3. When reading the body fails, both context managers are left with
    the pending exception, the response first and the session second, and
    [http_get] raises that exception. *)
Theorem http_get_body_read_failure :
  forall (W : Type) (h : handler W) (u : string) (w w1 w2 w3 w4 w5 : W)
         (s : session) (resp : response) (ex : exn),
    h _ ClientSession_enter w = Some (Ok s, w1) ->
    h _ (Session_get_enter s u) w1 = Some (Ok resp, w2) ->
    h _ (Response_text resp) w2 = Some (Raise ex, w3) ->
    h _ (Response_aexit resp (Some ex)) w3 = Some (Ok tt, w4) ->
    h _ (ClientSession_aexit s (Some ex)) w4 = Some (Ok tt, w5) ->
    final (exec h (Activities.http_get u) w) = Done (Raise ex) /\
    calls (events (exec h (Activities.http_get u) w))
      = [ECall ClientSession_enter (Some (Ok s));
         ECall (Session_get_enter s u) (Some (Ok resp));
         ECall (Response_text resp) (Some (Raise ex));
         ECall (Response_aexit resp (Some ex)) (Some (Ok tt));
         ECall (ClientSession_aexit s (Some ex)) (Some (Ok tt))].
Proof.
  intros W h u w w1 w2 w3 w4 w5 s resp ex H1 H2 H3 H4 H5.
  unfold Activities.http_get. simpl.
  rewrite H1. simpl. rewrite H2. simpl. rewrite H3. simpl.
  rewrite H4. simpl. rewrite H5. split; reflexivity.
Qed.

Lemma http_get_body_read_failure_witness :
  final (exec (Env.failing is_Response_text (Exc "ClientPayloadError") Env.obliging)
              (Activities.http_get "https://example.test/ping") 0%nat)
    = Done (Raise (Exc "ClientPayloadError")).
Proof.
  apply (@http_get_body_read_failure nat
           (Env.failing is_Response_text (Exc "ClientPayloadError") Env.obliging)
           "https://example.test/ping" 0%nat 1%nat 2%nat 2%nat 3%nat 4%nat 0%nat
           {| status := 200; url := "https://example.test/ping" |}
           (Exc "ClientPayloadError"));
    reflexivity.
Defined.

(** X4. A body that was read is lost when releasing the response fails:
    the session is then closed with that failure pending and [http_get]
    raises it instead of returning the body. *)
Theorem http_get_release_failure_hides_the_body :
  forall (W : Type) (h : handler W) (u : string) (w w1 w2 w3 w4 w5 : W)
         (s : session) (resp : response) (body : string) (ex : exn),
    h _ ClientSession_enter w = Some (Ok s, w1) ->
    h _ (Session_get_enter s u) w1 = Some (Ok resp, w2) ->
    h _ (Response_text resp) w2 = Some (Ok body, w3) ->
    h _ (Response_aexit resp None) w3 = Some (Raise ex, w4) ->
    h _ (ClientSession_aexit s (Some ex)) w4 = Some (Ok tt, w5) ->
    final (exec h (Activities.http_get u) w) = Done (Raise ex) /\
    pick session_closed (events (exec h (Activities.http_get u) w)) = [s].
Proof.
  intros W h u w w1 w2 w3 w4 w5 s resp body ex H1 H2 H3 H4 H5.
  unfold Activities.http_get. simpl.
  rewrite H1. simpl. rewrite H2. simpl. rewrite H3. simpl.
  rewrite H4. simpl. rewrite H5. split; reflexivity.
Qed.

Lemma http_get_release_failure_hides_the_body_witness :
  final (exec (Env.failing is_Response_aexit (Exc "RuntimeError") Env.obliging)
              (Activities.http_get "https://example.test/ping") 0%nat)
    = Done (Raise (Exc "RuntimeError")).
Proof.
  apply (@http_get_release_failure_hides_the_body nat
           (Env.failing is_Response_aexit (Exc "RuntimeError") Env.obliging)
           "https://example.test/ping" 0%nat 1%nat 2%nat 3%nat 3%nat 4%nat 0%nat
           {| status := 200; url := "https://example.test/ping" |}
           "body of https://example.test/ping" (Exc "RuntimeError"));
    reflexivity.
Defined.

(** ** TemporalWorkerTask: the object across start_worker and shutdown *)

(** X5. [start_worker] never changes the server address, the task-queue
    name or the pool size of the object, whatever the libraries answer and
    however it ends; and started on an object with no worker, it leaves a
    worker only together with a client. *)
Theorem start_worker_keeps_the_configuration :
  forall (W : Type) (h : handler W) (w : W) (self self' : Worker.TemporalWorkerTask)
         (r : result unit),
    final (exec h (Worker.start_worker self) w) = Done (r, self') ->
    Worker.temporal_server_url self' = Worker.temporal_server_url self /\
    Worker.task_queue self' = Worker.task_queue self /\
    Worker.max_concurrent_activities self' = Worker.max_concurrent_activities self /\
    (Worker.worker self = None ->
     Worker.worker self' <> None -> Worker.client self' <> None).
Proof.
  intros W h w [url queue n c k] self' r.
  unfold Worker.start_worker. simpl.
  repeat (next_answer h); intro H; try discriminate;
    injection H as _ <-; simpl;
    (repeat split; try reflexivity);
    intros Hk Hk'; first [discriminate | (subst k; contradiction)].
Qed.

Lemma start_worker_keeps_the_configuration_witness :
  Worker.task_queue
    (Worker.set_worker (Some 2%nat)
       (Worker.set_client (Some 0%nat) (Worker.__init__ None (Some "q") None))) = "q".
Proof.
  destruct (@start_worker_keeps_the_configuration nat Env.obliging 0%nat
              (Worker.__init__ None (Some "q") None)
              (Worker.set_worker (Some 2%nat)
                 (Worker.set_client (Some 0%nat) (Worker.__init__ None (Some "q") None)))
              (Ok tt) eq_refl) as [_ [Hq _]].
  exact Hq.
Defined.

(** X6. [start_worker] returns normally only when [Worker.run] has returned
    normally: the last thing a normally ended run did is that call, on the
    worker stored in the object, next to the client it connected; and
    whatever [start_worker] raises was raised by a library call, it has no
    error of its own. *)
Theorem start_worker_returns_only_after_run :
  forall (W : Type) (h : handler W) (w : W) (self : Worker.TemporalWorkerTask),
    propagates (events (exec h (Worker.start_worker self) w))
               (outcome (final (exec h (Worker.start_worker self) w))) /\
    (forall self' : Worker.TemporalWorkerTask,
        final (exec h (Worker.start_worker self) w) = Done (Ok tt, self') ->
        exists (c : Lib.client) (k : Lib.worker) (before : trace),
          Worker.client self' = Some c /\
          Worker.worker self' = Some k /\
          events (exec h (Worker.start_worker self) w)
            = before ++ [ECall (Worker_run k) (Some (Ok tt))]).
Proof.
  intros W h w [url queue n c k].
  unfold Worker.start_worker, propagates. simpl.
  repeat (next_answer h);
    (split;
     [ first [ reflexivity | exact I | (eexists []; reflexivity) ]
     | intros self' H; try discriminate ]).
  injection H; intros; subst. simpl.
  eexists _, _, [_; _; _; _; _]. repeat split; reflexivity.
Qed.

Lemma start_worker_returns_only_after_run_witness :
  exists (c : Lib.client) (k : Lib.worker) (before : trace),
    events (exec Env.obliging (Worker.start_worker (Worker.__init__ None None None)) 0%nat)
      = before ++ [ECall (Worker_run k) (Some (Ok tt))].
Proof.
  destruct (start_worker_returns_only_after_run Env.obliging 0%nat
              (Worker.__init__ None None None)) as [_ H].
  destruct (H _ eq_refl) as (c & k & before & _ & _ & He).
  exists c, k, before. exact He.
Defined.

(** X7. A start-up that connects but cannot build its worker leaves the
    client in the object and no worker; [shutdown] on that object then asks
    no worker to shut down, calls [client.close()] on exactly that client
    and ends as that call ends: normally when it returns, with its
    exception when it raises, never when it does not return. *)
Theorem failed_construction_then_shutdown_closes_the_client :
  forall (W : Type) (h : handler W) (w w1 w2 w3 : W) (self : Worker.TemporalWorkerTask)
         (c : Lib.client) (pool : executor) (ex : exn),
    Worker.client self = None ->
    Worker.worker self = None ->
    h _ (Client_connect (Worker.temporal_server_url self)
           (Some Worker.pydantic_data_converter)) w = Some (Ok c, w1) ->
    h _ (ThreadPoolExecutor_new (Worker.max_concurrent_activities self)) w1
      = Some (Ok pool, w2) ->
    h _ (Worker_new (Some c) (Worker.task_queue self)
           [Worker.HttpWorkflow] [Worker.http_get] pool) w2 = Some (Raise ex, w3) ->
    final (exec h (Worker.start_worker self) w)
      = Done (Raise ex, Worker.set_client (Some c) self) /\
    (forall (V : Type) (g : handler V) (v : V),
        pick worker_shut
          (events (exec g (Worker.shutdown (Worker.set_client (Some c) self)) v)) = [] /\
        pick client_closed
          (events (exec g (Worker.shutdown (Worker.set_client (Some c) self)) v)) = [c] /\
        calls (events (exec g (Worker.shutdown (Worker.set_client (Some c) self)) v))
          = [ECall (Client_close c)
               match g _ (Client_close c) v with
               | Some (a, _) => Some a
               | None => None
               end] /\
        final (exec g (Worker.shutdown (Worker.set_client (Some c) self)) v)
          = match g _ (Client_close c) v with
            | Some (a, _) => Done (a, Worker.set_client (Some c) self)
            | None => Blocked
            end).
Proof.
  intros W h w w1 w2 w3 [url queue n c0 k0] c pool ex Hc Hk H1 H2 H3.
  simpl in Hc, Hk, H1, H2, H3. subst c0 k0. split.
  - unfold Worker.start_worker. simpl.
    rewrite H1. simpl. rewrite H2. simpl. rewrite H3. reflexivity.
  - intros V g v. unfold Worker.shutdown. simpl.
    destruct (g _ (Client_close c) v) as [[a v'] |]; repeat split; reflexivity.
Qed.

Lemma failed_construction_then_shutdown_closes_the_client_witness :
  final (exec (Env.failing is_Worker_new (Exc "ValueError") Env.obliging)
              (Worker.start_worker (Worker.__init__ None None None)) 0%nat)
    = Done (Raise (Exc "ValueError"),
            Worker.set_client (Some 0%nat) (Worker.__init__ None None None)).
Proof.
  destruct (@failed_construction_then_shutdown_closes_the_client nat
              (Env.failing is_Worker_new (Exc "ValueError") Env.obliging)
              0%nat 1%nat 2%nat 2%nat (Worker.__init__ None None None)
              0%nat 1%nat (Exc "ValueError")
              eq_refl eq_refl eq_refl eq_refl eq_refl) as [H _].
  exact H.
Defined.

(** X8. [shutdown] never clears a field: however it ends, the object is as
    it was, so a second [shutdown] makes the same calls again.  It calls
    [worker.shutdown()] exactly when a worker is stored, and when it
    returns normally it has called [client.close()] exactly when a client
    is stored. *)
Theorem shutdown_leaves_the_object_unchanged :
  forall (W : Type) (h : handler W) (w : W) (self : Worker.TemporalWorkerTask),
    (forall (r : result unit) (self' : Worker.TemporalWorkerTask),
        final (exec h (Worker.shutdown self) w) = Done (r, self') -> self' = self) /\
    pick worker_shut (events (exec h (Worker.shutdown self) w))
      = olist (Worker.worker self) /\
    (forall self' : Worker.TemporalWorkerTask,
        final (exec h (Worker.shutdown self) w) = Done (Ok tt, self') ->
        pick client_closed (events (exec h (Worker.shutdown self) w))
          = olist (Worker.client self)).
Proof.
  intros W h w [url queue n [c |] [k |]]; unfold Worker.shutdown; simpl;
    repeat (next_answer h);
    (split; [intros r self' H; first [discriminate | (injection H as _ <-; reflexivity)] |]);
    (split; [reflexivity |]);
    intros self' H; first [discriminate | reflexivity].
Qed.

Lemma shutdown_leaves_the_object_unchanged_witness :
  pick client_closed
    (events (exec Env.obliging
               (Worker.shutdown
                  (Worker.set_worker (Some 2%nat)
                     (Worker.set_client (Some 0%nat) (Worker.__init__ None None None))))
               0%nat)) = [0%nat].
Proof.
  destruct (shutdown_leaves_the_object_unchanged Env.obliging 0%nat
              (Worker.set_worker (Some 2%nat)
                 (Worker.set_client (Some 0%nat) (Worker.__init__ None None None))))
    as [_ [_ H]].
  apply (H _ eq_refl).
Defined.

(** X9. When [worker.shutdown()] raises, [shutdown] raises the same and the
    client is never closed: [client.close()] comes second and nothing
    protects it. *)
Theorem shutdown_skips_close_when_the_worker_fails :
  forall (W : Type) (h : handler W) (w w1 : W) (self : Worker.TemporalWorkerTask)
         (k : Lib.worker) (ex : exn),
    Worker.worker self = Some k ->
    h _ (Worker_shutdown k) w = Some (Raise ex, w1) ->
    final (exec h (Worker.shutdown self) w) = Done (Raise ex, self) /\
    pick client_closed (events (exec h (Worker.shutdown self) w)) = [].
Proof.
  intros W h w w1 [url queue n c k0] k ex Hk H. simpl in Hk. subst k0.
  unfold Worker.shutdown. simpl. rewrite H. split; reflexivity.
Qed.

Lemma shutdown_skips_close_when_the_worker_fails_witness :
  pick client_closed
    (events (exec (Env.failing is_Worker_shutdown (Exc "RuntimeError") Env.obliging)
               (Worker.shutdown
                  (Worker.set_worker (Some 2%nat)
                     (Worker.set_client (Some 0%nat) (Worker.__init__ None None None))))
               0%nat)) = [].
Proof.
  destruct (@shutdown_skips_close_when_the_worker_fails nat
              (Env.failing is_Worker_shutdown (Exc "RuntimeError") Env.obliging)
              0%nat 0%nat
              (Worker.set_worker (Some 2%nat)
                 (Worker.set_client (Some 0%nat) (Worker.__init__ None None None)))
              2%nat (Exc "RuntimeError") eq_refl eq_refl) as [_ H].
  exact H.
Defined.

(** ** run_ray_worker against any Ray *)

(** X10. With [num_workers] zero or negative [run_ray_worker] creates
    nothing: it logs its first line, makes no library call and returns the
    empty list. *)
Theorem run_ray_worker_with_no_workers :
  forall (W : Type) (h : handler W) (w : W) (url queue : string) (n K : Z),
    K <= 0 ->
    exec h (Worker.run_ray_worker url queue n K) w =
    {| events := [ELog (Worker.info "Starting %d Temporal worker(s) as Ray tasks..."
                          [AInt K])];
       final := Done (Ok []);
       world := w |}.
Proof.
  intros W h w url queue n K HK. unfold Worker.run_ray_worker, range.
  replace (Z.to_nat K) with 0%nat by lia. reflexivity.
Qed.

Lemma run_ray_worker_with_no_workers_witness :
  final (exec Env.obliging
           (Worker.run_ray_worker "localhost:7233" "http-task-queue" 5 (-2)) 0%nat)
    = Done (Ok []).
Proof.
  rewrite (@run_ray_worker_with_no_workers nat Env.obliging 0%nat
             "localhost:7233" "http-task-queue" 5 (-2)); [reflexivity | lia].
Defined.

Section AnyRay.

Context {W : Type} (h : handler W).
Variables (url queue : string) (n K : Z).

Lemma spawn_any :
  forall (i : Z) (acc : list objref) (w : W),
    launched_so_far (url, queue, n) 1 acc (exec h (Worker.spawn url queue n K acc i) w).
Proof.
  intros i acc w. unfold launched_so_far, Worker.spawn. simpl.
  repeat (next_answer h);
    (split; [exists 1%nat; split; [lia | split; reflexivity] |]);
    repeat split; first [reflexivity | lia].
Qed.

Lemma repeat_same_length :
  forall (A : Type) (a : A) (m k : nat), repeat a m = repeat a k -> m = k.
Proof.
  intros A a m k H. apply (f_equal (@length A)) in H.
  rewrite !repeat_length in H. exact H.
Qed.

Lemma spawn_loop_any :
  forall (idx : list Z) (acc : list objref) (w : W),
    launched_so_far (url, queue, n) (length idx) acc
      (exec h (Worker.for_each (Worker.spawn url queue n K) idx acc) w).
Proof.
  induction idx as [| i rest IH]; intros acc w.
  - unfold launched_so_far. simpl. rewrite app_nil_r.
    split; [exists 0%nat; split; [lia | split; reflexivity] |].
    repeat split; reflexivity.
  - change (Worker.for_each (Worker.spawn url queue n K) (i :: rest) acc)
      with (pbind (Worker.spawn url queue n K acc i)
                  (fun acc' => Worker.for_each (Worker.spawn url queue n K) rest acc')).
    rewrite exec_pbind.
    destruct (spawn_any i acc w)
      as ((m1 & Hm1 & Hsp1 & Hcl1) & Hst1 & Hme1 & Hw1 & Hfin1).
    destruct (final (exec h (Worker.spawn url queue n K acc i) w))
      as [[refs1 | e1] |] eqn:Ef.
    + destruct Hfin1 as (Hr1 & Hrefs1 & Hlen1 & Hall1).
      assert (m1 = 1%nat) as ->.
      { apply (repeat_same_length (url, queue, n)). rewrite <- Hsp1. exact Hall1. }
      destruct (IH refs1 (world (exec h (Worker.spawn url queue n K acc i) w)))
        as ((m2 & Hm2 & Hsp2 & Hcl2) & Hst2 & Hme2 & Hw2 & Hfin2).
      unfold launched_so_far. cbn [events final world length].
      rewrite !pick_app, raised_app, Hr1, Hst1, Hst2, Hw1, Hw2, Hall1, Hcl1,
        Hme1, Hme2, length_app, repeat_app.
      split.
      { exists (S m2). split; [lia |]. rewrite Hsp2, Hcl2. split; reflexivity. }
      split; [reflexivity |]. split; [reflexivity |]. split; [reflexivity |].
      destruct (final (exec h (Worker.for_each (Worker.spawn url queue n K) rest refs1)
                         (world (exec h (Worker.spawn url queue n K acc i) w))))
        as [[refs2 | e2] |].
      * destruct Hfin2 as (Hr2 & Hrefs2 & Hlen2 & Hall2).
        split; [exact Hr2 |].
        split; [rewrite Hrefs2, Hrefs1, app_assoc; reflexivity |].
        split; [rewrite length_app, Hlen1, Hlen2; reflexivity |].
        rewrite Hall2. reflexivity.
      * destruct Hfin2 as (Hr2 & Hlt2). split; [exact Hr2 |].
        rewrite length_app, Hlen1. lia.
      * destruct Hfin2 as (Hr2 & Hlt2). split; [exact Hr2 |].
        rewrite length_app, Hlen1. lia.
    + destruct Hfin1 as (Hr1 & Hlt1).
      unfold launched_so_far. cbn [events final world].
      split; [exists m1; split; [cbn [length]; lia | split; assumption] |].
      split; [exact Hst1 |]. split; [exact Hme1 |]. split; [exact Hw1 |].
      split; [exact Hr1 | cbn [length]; lia].
    + destruct Hfin1 as (Hr1 & Hlt1).
      unfold launched_so_far. cbn [events final world].
      split; [exists m1; split; [cbn [length]; lia | split; assumption] |].
      split; [exact Hst1 |]. split; [exact Hme1 |]. split; [exact Hw1 |].
      split; [exact Hr1 | cbn [length]; lia].
Qed.

End AnyRay.

(** X11. Whatever Ray answers, and for every [num_workers]: every actor
    [run_ray_worker] creates is of class [TemporalWorkerTask] and gets
    exactly the server address, task-queue name and pool size it was called
    with, and there are at most [num_workers] of them; the only method it
    submits is [start_worker], once on each actor created and on nothing
    else; it never waits on a task; and it stops at the first call that
    raises: that exception is the only one raised and is what
    [run_ray_worker] raises, fewer than [num_workers] tasks have been
    launched, and their references are not handed to the caller. *)
Theorem run_ray_worker_against_any_ray :
  forall (W : Type) (h : handler W) (w : W) (url queue : string) (n K : Z),
    (exists m : nat,
        (m <= Z.to_nat K)%nat /\
        pick spawned (events (exec h (Worker.run_ray_worker url queue n K) w))
          = repeat (url, queue, n) m /\
        pick actor_class (events (exec h (Worker.run_ray_worker url queue n K) w))
          = repeat "TemporalWorkerTask" m) /\
    pick started (events (exec h (Worker.run_ray_worker url queue n K) w))
      = pick created (events (exec h (Worker.run_ray_worker url queue n K) w)) /\
    pick method_called (events (exec h (Worker.run_ray_worker url queue n K) w))
      = repeat "start_worker"
          (length (pick created
                     (events (exec h (Worker.run_ray_worker url queue n K) w)))) /\
    pick waited (events (exec h (Worker.run_ray_worker url queue n K) w)) = [] /\
    (forall e : exn,
        final (exec h (Worker.run_ray_worker url queue n K) w) = Done (Raise e) ->
        raised (events (exec h (Worker.run_ray_worker url queue n K) w)) = [e] /\
        (length (pick task_ref (events (exec h (Worker.run_ray_worker url queue n K) w)))
           < Z.to_nat K)%nat) /\
    (forall refs : list objref,
        final (exec h (Worker.run_ray_worker url queue n K) w) = Done (Ok refs) ->
        raised (events (exec h (Worker.run_ray_worker url queue n K) w)) = [] /\
        refs = pick task_ref (events (exec h (Worker.run_ray_worker url queue n K) w)) /\
        length refs = Z.to_nat K).
Proof.
  intros W h w url queue n K.
  destruct (spawn_loop_any h url queue n K (range K) [] w)
    as ((m & Hm & Hsp & Hcl) & Hst & Hme & Hw & Hfin).
  rewrite range_length in Hm, Hfin.
  unfold Worker.run_ray_worker. simpl.
  split; [exists m; split; [assumption | split; assumption] |].
  split; [exact Hst |]. split; [exact Hme |]. split; [exact Hw |].
  destruct (final (exec h (Worker.for_each (Worker.spawn url queue n K) (range K) []) w))
    as [[refs0 | e0] |]; split; intros x Hx; try discriminate;
    injection Hx as <-.
  - destruct Hfin as (Hr & Hrefs & Hlen & _). simpl in Hrefs.
    split; [exact Hr |]. split; [exact Hrefs |]. rewrite Hrefs. exact Hlen.
  - exact Hfin.
Qed.

Lemma run_ray_worker_against_any_ray_witness :
  raised (events (exec (Env.failing is_Actor_remote (Exc "RayActorError") Env.obliging)
                    (Worker.run_ray_worker "localhost:7233" "http-task-queue" 5 3) 0%nat))
    = [Exc "RayActorError"].
Proof.
  destruct (run_ray_worker_against_any_ray
              (Env.failing is_Actor_remote (Exc "RayActorError") Env.obliging)
              0%nat "localhost:7233" "http-task-queue" 5 3) as [_ [_ [_ [_ [H _]]]]].
  destruct (H (Exc "RayActorError") eq_refl) as [Hr _]. exact Hr.
Defined.

(** ** main of worker.py against any libraries *)

(** As [every_answer], with the answers of [ray.is_initialized()] split
    too. *)
Ltac any_answer h :=
  repeat first
    [ next_answer h
    | match goal with
      | |- context [negb ?a] => is_var a; destruct a; simpl
      | |- context [if ?a then _ else _] => is_var a; destruct a; simpl
      | |- context [is_KeyboardInterrupt ?a] => destruct a; simpl
      | |- context [is_Exception ?a] => destruct a; simpl
      | |- context [match ?a with KeyboardInterrupt => _ | _ => _ end] =>
          is_var a; destruct a; simpl
      end ].

Ltac settle_policy :=
  simpl;
  repeat match goal with |- _ /\ _ => split end;
  first
    [ reflexivity
    | exact I
    | (unfold count; simpl; lia)
    | (solve [repeat constructor])
    | (intros; discriminate)
    | (intros; left; reflexivity)
    | (intros; right; reflexivity)
    | (intros ? H; injection H as <-;
       first [ exists []; reflexivity
             | eexists [_]; reflexivity
             | eexists [_; _]; reflexivity ]) ].

(** Every run of [main], whatever any library answers. *)
Lemma main_policy :
  forall (W : Type) (h : handler W) (w : W) (r : run_ (result unit) W),
    r = exec h Worker.main w ->
    (final r = Done (Ok tt) ->
     raised (events r) = [] \/ raised (events r) = [KeyboardInterrupt]) /\
    (forall e : exn,
        final r = Done (Raise e) -> exists l : list exn, raised (events r) = l ++ [e]) /\
    (count error_logged (events r) <= 1)%nat /\
    (count error_logged (events r) = 1%nat ->
     existsb is_Exception (raised (events r)) = true) /\
    (count error_logged (events r) = 1%nat -> final r <> Done (Ok tt)) /\
    Forall (eq "start_worker") (pick method_called (events r)) /\
    Forall (eq ("localhost:7233", "http-task-queue", 5)) (pick spawned (events r)).
Proof.
  intros W h w r. unfold Worker.main. simpl.
  any_answer h; intros ->; settle_policy.
Qed.

(** X12. [main] swallows a [KeyboardInterrupt] and nothing else: a run that
    returns normally has seen no exception at all or exactly one, a
    [KeyboardInterrupt]; every other exception (an error, [SystemExit], a
    cancellation) ends [main] with an exception, and the exception [main]
    ends with is always the last one a library call raised. *)
Theorem main_swallows_only_the_interrupt :
  forall (W : Type) (h : handler W) (w : W),
    (final (exec h Worker.main w) = Done (Ok tt) ->
     raised (events (exec h Worker.main w)) = [] \/
     raised (events (exec h Worker.main w)) = [KeyboardInterrupt]) /\
    (forall e : exn,
        final (exec h Worker.main w) = Done (Raise e) ->
        exists l : list exn, raised (events (exec h Worker.main w)) = l ++ [e]).
Proof.
  intros W h w.
  destruct (@main_policy _ h w _ eq_refl) as [HA [HB _]].
  split; assumption.
Qed.

Lemma main_swallows_only_the_interrupt_witness :
  raised (events (exec (Ray.runtime (Env.failing is_ray_get KeyboardInterrupt Env.obliging))
                    Worker.main (false, 0%nat))) = [] \/
  raised (events (exec (Ray.runtime (Env.failing is_ray_get KeyboardInterrupt Env.obliging))
                    Worker.main (false, 0%nat))) = [KeyboardInterrupt].
Proof.
  destruct (main_swallows_only_the_interrupt
              (Ray.runtime (Env.failing is_ray_get KeyboardInterrupt Env.obliging))
              (false, 0%nat)) as [H _].
  apply H. reflexivity.
Defined.

(** X13. [main] writes its ERROR record "Error running Ray workers" at most
    once; when it has written it, a library call has raised an exception of
    class [Exception] and [main] does not return normally: a logged error is
    raised again, never swallowed. *)
Theorem main_logs_an_error_and_raises_it_again :
  forall (W : Type) (h : handler W) (w : W),
    (count error_logged (events (exec h Worker.main w)) <= 1)%nat /\
    (count error_logged (events (exec h Worker.main w)) = 1%nat ->
     existsb is_Exception (raised (events (exec h Worker.main w))) = true /\
     final (exec h Worker.main w) <> Done (Ok tt)).
Proof.
  intros W h w.
  destruct (@main_policy _ h w _ eq_refl) as [_ [_ [HC [HD [HE _]]]]].
  split; [exact HC |]. intro H1. split; [apply HD | apply HE]; exact H1.
Qed.

Lemma main_logs_an_error_and_raises_it_again_witness :
  final (exec (Ray.runtime Env.obliging) Worker.main (false, 0%nat)) <> Done (Ok tt).
Proof.
  destruct (main_logs_an_error_and_raises_it_again
              (Ray.runtime Env.obliging) (false, 0%nat)) as [_ H].
  destruct (H eq_refl) as [_ Hn]. exact Hn.
Defined.

(** X14. The only method [main] ever submits on a replica is
    [start_worker]: on an interrupt or an error it goes on to
    [ray.shutdown()] without asking any replica to run
    [TemporalWorkerTask.shutdown]. *)
Theorem main_never_asks_a_replica_to_shut_down :
  forall (W : Type) (h : handler W) (w : W),
    Forall (eq "start_worker") (pick method_called (events (exec h Worker.main w))).
Proof.
  intros W h w.
  destruct (@main_policy _ h w _ eq_refl) as [_ [_ [_ [_ [_ [H _]]]]]].
  exact H.
Qed.

(** X15. When [ray.init()] raises, [main] raises the same at once: the call
    is outside the [try], so nothing is logged as an error, no replica is
    created and [ray.shutdown()] is not called. *)
Theorem main_when_init_fails :
  forall (W : Type) (h : handler W) (w w1 w2 : W) (ex : exn),
    h _ ray_is_initialized w = Some (Ok false, w1) ->
    h _ ray_init w1 = Some (Raise ex, w2) ->
    exec h Worker.main w =
    {| events := [ECall ray_is_initialized (Some (Ok false));
                  ELog (Worker.info "Initializing Ray..." []);
                  ECall ray_init (Some (Raise ex))];
       final := Done (Raise ex);
       world := w2 |}.
Proof.
  intros W h w w1 w2 ex H1 H2. unfold Worker.main. simpl.
  rewrite H1. simpl. rewrite H2. reflexivity.
Qed.

Lemma main_when_init_fails_witness :
  final (exec (Env.failing Env.is_ray_init (Exc "ConnectionError") Env.obliging)
              Worker.main 0%nat)
    = Done (Raise (Exc "ConnectionError")).
Proof.
  rewrite (@main_when_init_fails nat
             (Env.failing Env.is_ray_init (Exc "ConnectionError") Env.obliging)
             0%nat 1%nat 1%nat (Exc "ConnectionError") eq_refl eq_refl).
  reflexivity.
Defined.

(** ** The submitter of http_workflow.py, and how the two mains meet *)

(** Every run of the submitter, whatever the libraries answer. *)
Lemma submitter_runs :
  forall (W : Type) (h : handler W) (w : W),
    pick connected (events (exec h HttpWorkflow.main w)) = ["localhost:7233"] /\
    (pick submitted (events (exec h HttpWorkflow.main w)) = [] \/
     pick submitted (events (exec h HttpWorkflow.main w))
       = [(HttpWorkflow.HttpWorkflow_run, "http-task-queue")]) /\
    pick printed (events (exec h HttpWorkflow.main w))
      = map (fun s => nl ++ "Successful Workflow Result: " ++ s ++ nl)%string
            (pick workflow_result (events (exec h HttpWorkflow.main w))) /\
    (final (exec h HttpWorkflow.main w) = Done (Ok tt) ->
     length (pick printed (events (exec h HttpWorkflow.main w))) = 1%nat) /\
    pick client_closed (events (exec h HttpWorkflow.main w)) = [].
Proof.
  intros W h w. unfold HttpWorkflow.main. simpl.
  repeat (next_answer h);
    repeat match goal with |- _ /\ _ => split end;
    first [ reflexivity | (left; reflexivity) | (right; reflexivity)
          | (intros; discriminate) ].
Qed.

(** X16. The submitter connects once, to the fixed address; it submits at
    most one workflow, [HttpWorkflow.run] on the fixed task queue, and only
    after connecting; it prints only when the workflow returned, exactly
    once, the result between the fixed prefix and a newline; and it never
    closes the client it opened. *)
Theorem submitter_prints_only_a_result :
  forall (W : Type) (h : handler W) (w : W),
    pick connected (events (exec h HttpWorkflow.main w)) = ["localhost:7233"] /\
    (pick submitted (events (exec h HttpWorkflow.main w)) = [] \/
     pick submitted (events (exec h HttpWorkflow.main w))
       = [(HttpWorkflow.HttpWorkflow_run, "http-task-queue")]) /\
    pick printed (events (exec h HttpWorkflow.main w))
      = map (fun s => nl ++ "Successful Workflow Result: " ++ s ++ nl)%string
            (pick workflow_result (events (exec h HttpWorkflow.main w))) /\
    (final (exec h HttpWorkflow.main w) = Done (Ok tt) ->
     length (pick printed (events (exec h HttpWorkflow.main w))) = 1%nat) /\
    pick client_closed (events (exec h HttpWorkflow.main w)) = [].
Proof. intros W h w. apply submitter_runs. Qed.

Lemma submitter_prints_only_a_result_witness :
  length (pick printed (events (exec Env.obliging HttpWorkflow.main 0%nat))) = 1%nat.
Proof.
  destruct (submitter_prints_only_a_result Env.obliging 0%nat) as [_ [_ [_ [H _]]]].
  apply H. reflexivity.
Defined.

(** X17. The two programs meet: whatever the libraries answer, every
    replica [main] of worker.py creates is given the server address, task
    queue and pool size that [TemporalWorkerTask] has as defaults, and the
    submitter of http_workflow.py connects to that address and submits on
    that task queue a workflow of the module the worker registers. *)
Theorem submitter_and_replicas_share_server_and_queue :
  forall (W V : Type) (h : handler W) (w : W) (g : handler V) (v : V),
    Forall (fun kwargs => Worker.replica kwargs = Worker.__init__ None None None)
           (pick spawned (events (exec h Worker.main w))) /\
    Forall (fun target =>
              target = Worker.temporal_server_url (Worker.__init__ None None None))
           (pick connected (events (exec g HttpWorkflow.main v))) /\
    Forall (fun wq =>
              snd wq = Worker.task_queue (Worker.__init__ None None None) /\
              module_ (fst wq) = module_ Worker.HttpWorkflow)
           (pick submitted (events (exec g HttpWorkflow.main v))).
Proof.
  intros W V h w g v.
  destruct (@main_policy _ h w _ eq_refl) as [_ [_ [_ [_ [_ [_ H]]]]]].
  destruct (submitter_runs g v) as [Hc [Hs _]].
  split; [| split].
  - eapply Forall_impl; [| exact H]. intros kwargs <-. reflexivity.
  - rewrite Hc. repeat constructor.
  - destruct Hs as [Hs | Hs]; rewrite Hs; repeat constructor.
Qed.
